(** * stevedore: the HTTP resources of [api/resources.py]

    A shallow embedding of [TaskResource] (and the two result stubs) and the
    properties of its handlers.

    The handlers are Python methods that mutate the response object they are
    given, call into collaborators that live outside this file of the
    repository ([utils], [models.Task], [api.utils], the [rq] queue) and may
    be interrupted by an exception at every such call.  They are embedded
    as computations of a state-and-exception monad:

    - the state holds the response object, the local variable [session] of
      the running handler, the state of the outside world, and the trace of
      the calls made to the collaborators;
    - the collaborators are the fields of a record [Collab], a parameter of
      every handler: a theorem about a handler holds for every behaviour of
      the database and of the queue, failures included;
    - [Model] is one concrete set of collaborators, written from the
      specification, on which the handlers run.

    Calls to [self.logger.debug] only format their arguments; they touch
    neither the response, the store nor the queue, and are not embedded. *)

From stdpp Require Import base strings gmap list list_numbers pretty.

Open Scope Z_scope.

(** ** Python values and exceptions *)

(** The values a decoded JSON payload can hold.  [POther] stands for a value
    of any remaining type (a float, an array, an object), kept by its text. *)
Inductive pyval : Type :=
| PNone
| PBool (b : bool)
| PInt (z : Z)
| PStr (s : string)
| POther (text : string).

(** A decoded payload: what [dict.get] is called on. *)
Abbreviation dict := (gmap string pyval).

(** [d.get(key, dflt)] *)
Definition get (d : dict) (key : string) (dflt : pyval) : pyval :=
  default dflt (d !! key).

(** [d.update] with keyword arguments [kwargs]: every key of [kwargs] is
    written into [d]. *)
Definition update (d kwargs : dict) : dict := kwargs ∪ d.

Inductive exn : Type :=
| UnboundLocalError (var : string)
| TypeError (msg : string)
| Error (cls : string).

(** How a call ends. *)
Inductive outcome (A : Type) : Type :=
| Returns (a : A)
| Raises (e : exn).
Arguments Returns {A} a.
Arguments Raises {A} e.

(** The exception a call ended with, if any. *)
Definition raised {A} (o : outcome A) : option exn :=
  match o with Returns _ => None | Raises e => Some e end.

(** The truth value of a route parameter ([None] when the route has none). *)
Definition truthy (task_id : option string) : bool :=
  match task_id with
  | Some (String _ _) => true
  | Some EmptyString | None => false
  end.

(** The integer a value is when [range] accepts it: [bool] is a subclass of
    [int]; every other type is refused with a [TypeError]. *)
Definition as_int (v : pyval) : option Z :=
  match v with
  | PInt z => Some z
  | PBool b => Some (if b then 1 else 0)
  | _ => None
  end.

(** ** falcon: status lines and the response object *)

Module falcon.

Definition HTTP_200 : string := "200 OK".
Definition HTTP_201 : string := "201 Created".
Definition HTTP_404 : string := "404 Not Found".
Definition HTTP_409 : string := "409 Conflict".
Definition HTTP_500 : string := "500 Internal Server Error".

Record Response : Type := {
  status : string;
  body : option string;
  location : option string
}.

(** The response object after an attribute is assigned. *)
Definition with_status (r : Response) (s : string) : Response :=
  {| status := s; body := body r; location := location r |}.

Definition with_body (r : Response) (b : string) : Response :=
  {| status := status r; body := Some b; location := location r |}.

Definition with_location (r : Response) (l : string) : Response :=
  {| status := status r; body := body r; location := Some l |}.

End falcon.
Export falcon.

(** ** models.Task and rq.Queue: the data the handlers pass around *)

Module Task.
Record t : Type := { id : Z; repository : string; name : string }.
End Task.

Definition Session : Type := nat.

Record Queue : Type := {
  q_name : string;
  q_connection : dict
}.

(** A call made to a collaborator, with its arguments. *)
Inductive call : Type :=
| create_db_session_
| close_db_session_ (session : Session)
| create_unique_task_ (session : Session) (repository name : pyval)
| find_by_id_ (session : Session) (task_id : option string)
| find_all_ (session : Session)
| serialize_ (task : Task.t)
| serialize_tasks_ (tasks : list Task.t)
| enqueue_ (q : Queue) (func : string) (task_id : option string) (operation : pyval).

(** A trace entry: the call and the exception it raised ([None] when it
    returned). *)
Definition event : Type := call * option exn.

(** An entry of a call to [utils.close_db_session]. *)
Definition is_close (ev : event) : Prop := ∃ s, fst ev = close_db_session_ s.

(** The calls that submit a job. *)
Definition is_enqueue (c : call) : bool :=
  match c with
  | enqueue_ _ _ _ _ => true
  | _ => false
  end.

(** The calls that can add to the store or to the queue; the others open or
    close a session, look Tasks up or serialize them. *)
Definition writes (c : call) : bool :=
  match c with
  | create_unique_task_ _ _ _ | enqueue_ _ _ _ _ => true
  | _ => false
  end.

(** ** The collaborators *)

(** Everything the handlers call that is defined outside [resources.py].
    Each stateful collaborator is a function of the state [World] of the
    outside world that returns or raises.  The two request utilities follow
    their contract: they never raise, and a payload that cannot be decoded
    gives a mapping all the same.  [Request] is falcon's request object and
    [Raw] what is read from its stream; the handlers only pass them on. *)
Record Collab (World Request Raw : Type) : Type := {
  utils_create_db_session : World → outcome Session * World;
  utils_close_db_session : Session → World → outcome () * World;
  Task_create_unique_task :
    Session → pyval → pyval → World → outcome (Task.t * bool) * World;
  Task_find_by_id : Session → option string → World → outcome (option Task.t) * World;
  Task_find_all : Session → World → outcome (list Task.t) * World;
  Task_serialize : Task.t → World → outcome string * World;
  Task_serialize_tasks : list Task.t → World → outcome string * World;
  Queue_enqueue :
    Queue → string → option string → pyval → World → outcome () * World;
  api_utils__read_stream : Request → Raw;
  api_utils__raw_to_dict : Raw → dict;
  str_Response : Response → string
}.
Arguments utils_create_db_session {World Request Raw} _ _.
Arguments utils_close_db_session {World Request Raw} _ _ _.
Arguments Task_create_unique_task {World Request Raw} _ _ _ _ _.
Arguments Task_find_by_id {World Request Raw} _ _ _ _.
Arguments Task_find_all {World Request Raw} _ _ _.
Arguments Task_serialize {World Request Raw} _ _ _.
Arguments Task_serialize_tasks {World Request Raw} _ _ _.
Arguments Queue_enqueue {World Request Raw} _ _ _ _ _ _.
Arguments api_utils__read_stream {World Request Raw} _ _.
Arguments api_utils__raw_to_dict {World Request Raw} _ _.
Arguments str_Response {World Request Raw} _ _.

(** ** The monad of a running handler *)

Record state (World : Type) : Type := State {
  world : World;
  resp : Response;
  session : option Session;
  trace : list event
}.
Arguments State {World} _ _ _ _.
Arguments world {World} _.
Arguments resp {World} _.
Arguments session {World} _.
Arguments trace {World} _.

Definition M (World A : Type) : Type := state World → outcome A * state World.

Section Monad.
Context {World : Type}.

Definition ret {A} (a : A) : M World A := λ st, (Returns a, st).

Definition raise {A} (e : exn) : M World A := λ st, (Raises e, st).

Definition bind {A B} (m : M World A) (k : A → M World B) : M World B :=
  λ st, match m st with
        | (Returns a, st') => k a st'
        | (Raises e, st') => (Raises e, st')
        end.

(** [try: body / except: handler / finally: final].  The bare [except]
    catches every exception; [final] runs on every path, and an exception
    it raises replaces whatever was pending. *)
Definition try_except_finally (body handler final : M World ()) : M World () :=
  λ st, match body st with
        | (Returns _, st1) => final st1
        | (Raises _, st1) =>
            match handler st1 with
            | (Returns _, st2) => final st2
            | (Raises e, st2) =>
                match final st2 with
                | (Returns _, st3) => (Raises e, st3)
                | (Raises e', st3) => (Raises e', st3)
                end
            end
        end.

(** A call to a collaborator: it runs on the world and is traced. *)
Definition ext {A} (c : call) (f : World → outcome A * World) : M World A :=
  λ st, let '(r, w) := f (world st) in
        (r, State w (resp st) (session st) (trace st ++ [(c, raised r)])).

(** [resp.status = s], [resp.body = b], [resp.location = l] *)
Definition set_status (s : string) : M World () :=
  λ st, (Returns (), State (world st) (with_status (resp st) s) (session st) (trace st)).

Definition set_body (b : string) : M World () :=
  λ st, (Returns (), State (world st) (with_body (resp st) b) (session st) (trace st)).

Definition set_location (l : string) : M World () :=
  λ st, (Returns (), State (world st) (with_location (resp st) l) (session st) (trace st)).

(** The name [resp] evaluates to the response object. *)
Definition get_resp : M World Response := λ st, (Returns (resp st), st).

(** A function is entered with its local [session] unbound. *)
Definition enter : M World () :=
  λ st, (Returns (), State (world st) (resp st) None (trace st)).

(** [session = v] *)
Definition set_session (v : Session) : M World () :=
  λ st, (Returns (), State (world st) (resp st) (Some v) (trace st)).

(** Reading the local [session]: an unbound local raises. *)
Definition get_session : M World Session :=
  λ st, match session st with
        | Some v => (Returns v, st)
        | None => (Raises (UnboundLocalError "session"), st)
        end.

(** [range(lo, hi)] *)
Definition range (lo : Z) (hi : pyval) : M World (list Z) :=
  match as_int hi with
  | Some h => ret (seqZ lo (h - lo))
  | None => raise (TypeError "range() integer end argument expected")
  end.

(** [for x in xs: body] *)
Fixpoint for_each {A} (xs : list A) (body : A → M World ()) : M World () :=
  match xs with
  | [] => ret ()
  | x :: xs' => bind (body x) (λ _, for_each xs' body)
  end.

End Monad.

Notation "'let!' x ':=' m 'in' k" := (bind m (λ x, k))
  (at level 10, x pattern, m at level 100, k at level 200, only parsing).
Notation "m ;; k" := (bind m (λ _, k))
  (at level 100, right associativity, only parsing).

(** ** TaskResource *)

Definition loc : Type := positive.

(** The dictionaries of the interpreter, by address: two names that hold the
    same address hold the same dictionary. *)
Abbreviation heap := (gmap loc dict).

Record TaskResource : Type := {
  redis_config : loc;
  q : Queue
}.

Section TaskResource.
(** [config.DEFAULT]: the address the module attribute holds. *)
Variable DEFAULT : loc.

(** [redis.StrictRedis] called with the entries of the dictionary as keyword
    arguments, wrapped by [rq.Queue(name=name, connection=...)]: the queue
    keeps the entries it was built from. *)
Definition rq_Queue (name : string) (connection : dict) : Queue :=
  {| q_name := name; q_connection := connection |}.

(** [_create_queue(self, name='default', *args, **kwargs)].  It reads no
    attribute of [self] but [redis_config], which it is given. *)
Definition _create_queue (self_redis_config : loc) (name : string)
    (kwargs : dict) (h : heap) : Queue * heap :=
  let h' := alter (λ d, update d kwargs) self_redis_config h in
  let q := rq_Queue name (default ∅ (h' !! self_redis_config)) in
  (q, h').

(** [TaskResource()] *)
Definition __init__ (h : heap) : TaskResource * heap :=
  let self_redis_config := DEFAULT in
  let '(q, h') := _create_queue self_redis_config "default" ∅ h in
  ({| redis_config := self_redis_config; q := q |}, h').

Context {World Request Raw : Type} (C : Collab World Request Raw).

Definition create_db_session : M World Session :=
  ext create_db_session_ (utils_create_db_session C).

Definition close_db_session (s : Session) : M World () :=
  ext (close_db_session_ s) (utils_close_db_session C s).

Definition create_unique_task (s : Session) (repository name : pyval)
  : M World (Task.t * bool) :=
  ext (create_unique_task_ s repository name) (Task_create_unique_task C s repository name).

Definition find_by_id (s : Session) (task_id : option string) : M World (option Task.t) :=
  ext (find_by_id_ s task_id) (Task_find_by_id C s task_id).

Definition find_all (s : Session) : M World (list Task.t) :=
  ext (find_all_ s) (Task_find_all C s).

Definition serialize (t : Task.t) : M World string :=
  ext (serialize_ t) (Task_serialize C t).

Definition serialize_tasks (ts : list Task.t) : M World string :=
  ext (serialize_tasks_ ts) (Task_serialize_tasks C ts).

(** [q.enqueue(func, task_id, operation)] *)
Definition enqueue (q : Queue) (func : string) (task_id : option string)
    (operation : pyval) : M World () :=
  ext (enqueue_ q func task_id operation) (Queue_enqueue C q func task_id operation).

(** [jobs.execute_worker], handed to the queue by reference. *)
Definition execute_worker : string := "execute_worker".

(** The [finally] clause of both handlers: [utils.close_db_session(session)]. *)
Definition release : M World () :=
  let! session := get_session in
  close_db_session session.

Definition _execute_task (self : TaskResource) (task_id : option string)
    (times operation : pyval) : M World Response :=
  set_status HTTP_200 ;;
  let! indices := range 0 times in
  for_each indices (λ i, enqueue (q self) execute_worker task_id operation) ;;
  get_resp.

Definition _create_new_task (self : TaskResource) (repository name : pyval)
  : M World Response :=
  enter ;;
  try_except_finally
    (let! session := create_db_session in
     set_session session ;;
     let! (task, created) := create_unique_task session repository name in
     (if created : bool then set_status HTTP_201 else set_status HTTP_409) ;;
     let! r := get_resp in
     set_location ("/" +:+ str_Response C r +:+ "/task/" +:+ pretty (Task.id task) +:+ "/"))
    (set_status HTTP_500)
    release ;;
  get_resp.

Definition on_get (self : TaskResource) (req : Request) (task_id : option string)
  : M World Response :=
  enter ;;
  try_except_finally
    (let! session := create_db_session in
     set_session session ;;
     if truthy task_id then
       let! task := find_by_id session task_id in
       match task with
       | Some task =>
           let! b := serialize task in
           set_body b ;;
           set_status HTTP_200
       | None => set_status HTTP_404
       end
     else
       let tasks := [] in
       let! found := find_all session in
       let tasks := tasks ++ found in
       let! b := serialize_tasks tasks in
       set_body b ;;
       if bool_decide (0 < length tasks)%nat
       then set_status HTTP_200
       else set_status HTTP_404)
    (set_status HTTP_500)
    release ;;
  get_resp.

Definition on_post (self : TaskResource) (req : Request) (task_id : option string)
  : M World Response :=
  let raw_json := api_utils__read_stream C req in
  let parsed_json := api_utils__raw_to_dict C raw_json in
  if truthy task_id then
    let operation := get parsed_json "operation" (PStr "RUN") in
    let times := get parsed_json "times" (PInt 1) in
    _execute_task self task_id times operation
  else
    let repository := get parsed_json "repository" PNone in
    let name := get parsed_json "name" PNone in
    _create_new_task self repository name.

(** A request as falcon dispatches it: the responder runs on the response
    object [resp0] and on the world [w], from an empty trace. *)
Definition handle {A} (m : M World A) (resp0 : Response) (w : World)
  : outcome A * state World :=
  m (State w resp0 None []).

End TaskResource.

(** ** The construction of the queue as a call that can fail *)

(** [_create_queue] and [__init__] above give what the two do to the
    dictionaries, and the queue they build when [redis.StrictRedis] takes
    every keyword it is given.  Here they are with the refusal redis makes:
    a keyword [redis.StrictRedis] does not take is a [TypeError], raised
    after the dictionary is updated.  [kwargs] are the keyword arguments
    left once Python has bound [name], so they hold no key ["name"]. *)
Module Strict.
Section Calls.
(** The keywords [redis.StrictRedis] takes. *)
Variable known : string → bool.
(** [config.DEFAULT]: the address the module attribute holds. *)
Variable DEFAULT : loc.

(** [redis.StrictRedis] called with the entries of [kwargs] as keyword
    arguments; the connection keeps the keywords it was built from. *)
Definition StrictRedis (kwargs : dict) : outcome dict :=
  if bool_decide (map_Forall (λ k _, known k = true) kwargs)
  then Returns kwargs
  else Raises (TypeError "__init__() got an unexpected keyword argument").

(** [_create_queue(self, name='default', *args, **kwargs)] *)
Definition _create_queue (self_redis_config : loc) (name : string)
    (kwargs : dict) (h : heap) : outcome Queue * heap :=
  let h' := alter (λ d, update d kwargs) self_redis_config h in
  match StrictRedis (default ∅ (h' !! self_redis_config)) with
  | Returns connection => (Returns (rq_Queue name connection), h')
  | Raises e => (Raises e, h')
  end.

(** [TaskResource()] *)
Definition __init__ (h : heap) : outcome TaskResource * heap :=
  let self_redis_config := DEFAULT in
  match _create_queue self_redis_config "default" ∅ h with
  | (Returns queue, h') =>
      (Returns {| redis_config := self_redis_config; q := queue |}, h')
  | (Raises e, h') => (Raises e, h')
  end.

End Calls.
End Strict.

(** ** ResultResource and ResultDetailResource *)

Module ResultResource.
Definition on_get {World Request} (req : Request) (result_id : option string)
  : M World () :=
  set_status HTTP_200 ;;
  set_body "Results!".
End ResultResource.

Module ResultDetailResource.
Definition on_get {World Request} (req : Request) (result_id detail_id : option string)
  : M World () :=
  set_status HTTP_200 ;;
  set_body "Result Details!".
End ResultDetailResource.

(** ** A model of the collaborators *)

Module Model.

(** A job on the queue: the function and the arguments [enqueue] was given. *)
Record job : Type := {
  j_queue : Queue;
  j_func : string;
  j_task_id : option string;
  j_operation : pyval
}.

(** Modelled from the spec: the database behind [models.Task] and [utils],
    and the redis queue behind [rq]; neither is defined in [resources.py].
    The store is the list of Task rows in insertion order; [db_up] and
    [redis_up] say whether the database and the queue backend answer. *)
Record backend : Type := {
  rows : list Task.t;
  db_up : bool;
  next_session : Session;
  open_sessions : list Session;
  jobs : list job;
  redis_up : bool
}.

(** The request: its headers and its body, the body by what it decodes to
    ([None] for a body that is absent or is not a JSON object). *)
Record request : Type := {
  _headers : list (string * string);
  stream : option dict
}.

(** The uniqueness key of a Task. *)
Definition key (t : Task.t) : string * string := (Task.repository t, Task.name t).

(** Modelled from the spec: [utils.create_db_session], which is not in
    [resources.py]: a session is acquired per request; database failures
    are exceptions. *)
Definition create_db_session (w : backend) : outcome Session * backend :=
  if db_up w then
    (Returns (next_session w),
     {| rows := rows w; db_up := db_up w; next_session := S (next_session w);
        open_sessions := next_session w :: open_sessions w;
        jobs := jobs w; redis_up := redis_up w |})
  else (Raises (Error "OperationalError"), w).

(** Modelled from the spec: [utils.close_db_session], which is not in
    [resources.py]: it releases the session. *)
Definition close_db_session (s : Session) (w : backend) : outcome () * backend :=
  (Returns (),
   {| rows := rows w; db_up := db_up w; next_session := next_session w;
      open_sessions := filter (λ s', s' ≠ s) (open_sessions w);
      jobs := jobs w; redis_up := redis_up w |}).

(** The first stored Task with the key [k]. *)
Definition find_key (k : string * string) (l : list Task.t) : option Task.t :=
  snd <$> list_find (λ t, key t = k) l.

(** Modelled from the spec: [Task.create_unique_task], which is not in
    [resources.py]: create-if-absent returns the existing record if one has
    the key, otherwise creates and returns a new one, and signals which case
    occurred; a new Task gets an id assigned by the server; a missing
    [repository] or [name] is an exception. *)
Definition create_unique_task (s : Session) (repository name : pyval) (w : backend)
  : outcome (Task.t * bool) * backend :=
  match repository, name with
  | PStr r, PStr n =>
      match find_key (r, n) (rows w) with
      | Some t => (Returns (t, false), w)
      | None =>
          let t := {| Task.id := Z.of_nat (length (rows w)) + 1;
                      Task.repository := r; Task.name := n |} in
          (Returns (t, true),
           {| rows := rows w ++ [t]; db_up := db_up w; next_session := next_session w;
              open_sessions := open_sessions w; jobs := jobs w; redis_up := redis_up w |})
      end
  | _, _ => (Raises (Error "IntegrityError"), w)
  end.

(** Modelled from the spec: [Task.find_by_id], which is not in
    [resources.py]: lookup of a single Task by id; the id of the route is
    text. *)
Definition find_by_id (s : Session) (task_id : option string) (w : backend)
  : outcome (option Task.t) * backend :=
  (Returns (snd <$> list_find (λ t, Some (pretty (Task.id t)) = task_id) (rows w)), w).

(** Modelled from the spec: [Task.find_all], which is not in
    [resources.py]: all Tasks. *)
Definition find_all (s : Session) (w : backend) : outcome (list Task.t) * backend :=
  (Returns (rows w), w).

(** Modelled from the spec: [Task.serialize], which is not in
    [resources.py].  The spec fixes no format; this one writes the three
    attributes. *)
Definition serialize_text (t : Task.t) : string :=
  "{id: " +:+ pretty (Task.id t) +:+ ", repository: " +:+ Task.repository t
  +:+ ", name: " +:+ Task.name t +:+ "}".

(** Modelled from the spec: [Task.serialize] as a call: it reads the Task
    only and always returns. *)
Definition serialize (t : Task.t) (w : backend) : outcome string * backend :=
  (Returns (serialize_text t), w).

(** Modelled from the spec: [Task.serialize_tasks], which is not in
    [resources.py]: the Tasks serialized as a collection. *)
Definition serialize_tasks (ts : list Task.t) (w : backend) : outcome string * backend :=
  (Returns ("[" +:+ String.concat ", " (serialize_text <$> ts) +:+ "]"), w).

(** Modelled from the spec: [rq.Queue.enqueue] on the redis backend: the job
    is appended to the queue; a queue submission failure is an exception. *)
Definition enqueue (q : Queue) (func : string) (task_id : option string)
    (operation : pyval) (w : backend) : outcome () * backend :=
  if redis_up w then
    (Returns (),
     {| rows := rows w; db_up := db_up w; next_session := next_session w;
        open_sessions := open_sessions w;
        jobs := jobs w ++ [{| j_queue := q; j_func := func; j_task_id := task_id;
                              j_operation := operation |}];
        redis_up := redis_up w |})
  else (Raises (Error "ConnectionError"), w).

(** Modelled from the spec: [api.utils._read_stream], which is not in
    [resources.py]: the body of the request is drained. *)
Definition _read_stream (req : request) : option dict := stream req.

(** Modelled from the spec: [api.utils._raw_to_dict], which is not in
    [resources.py]: the mapping the payload decodes to, empty on a parse
    failure. *)
Definition _raw_to_dict (raw : option dict) : dict := default ∅ raw.

(** [str(resp)] for falcon's response object: Python's default text of an
    object, its class and its address. *)
Definition Response_str (r : Response) : string :=
  "<falcon.response.Response object at 0x7f3a5c0d2e10>".

(** The collaborators of the model. *)
Definition collab : Collab backend request (option dict) := {|
  utils_create_db_session := create_db_session;
  utils_close_db_session := close_db_session;
  Task_create_unique_task := create_unique_task;
  Task_find_by_id := find_by_id;
  Task_find_all := find_all;
  Task_serialize := serialize;
  Task_serialize_tasks := serialize_tasks;
  Queue_enqueue := enqueue;
  api_utils__read_stream := _read_stream;
  api_utils__raw_to_dict := _raw_to_dict;
  str_Response := Response_str
|}.

(** The same collaborators with failures of their own: the calls [bad]
    selects raise the exception it gives, before they touch anything. *)
Definition failing {A} (bad : call → option exn) (c : call)
    (f : backend → outcome A * backend) : backend → outcome A * backend :=
  λ w, match bad c with
       | Some e => (Raises e, w)
       | None => f w
       end.

Definition faulty (bad : call → option exn) : Collab backend request (option dict) := {|
  utils_create_db_session := failing bad create_db_session_ create_db_session;
  utils_close_db_session := λ s, failing bad (close_db_session_ s) (close_db_session s);
  Task_create_unique_task := λ s r n,
    failing bad (create_unique_task_ s r n) (create_unique_task s r n);
  Task_find_by_id := λ s i, failing bad (find_by_id_ s i) (find_by_id s i);
  Task_find_all := λ s, failing bad (find_all_ s) (find_all s);
  Task_serialize := λ t, failing bad (serialize_ t) (serialize t);
  Task_serialize_tasks := λ ts, failing bad (serialize_tasks_ ts) (serialize_tasks ts);
  Queue_enqueue := λ q f t o, failing bad (enqueue_ q f t o) (enqueue q f t o);
  api_utils__read_stream := _read_stream;
  api_utils__raw_to_dict := _raw_to_dict;
  str_Response := Response_str
|}.

(** The world before any request: an empty store, an empty queue. *)
Definition empty : backend := {|
  rows := []; db_up := true; next_session := 0%nat; open_sessions := [];
  jobs := []; redis_up := true
|}.

(** Modelled from the spec: [config.DEFAULT], which is not in
    [resources.py]: the global redis configuration, a dictionary; the spec
    does not list its entries, these are redis' own defaults. *)
Definition config_DEFAULT : loc := 1%positive.

(** The dictionaries that exist once the modules are imported. *)
Definition interpreter : heap :=
  {[ config_DEFAULT :=
       {[ "host" := PStr "localhost"; "port" := PInt 6379; "db" := PInt 0 ]} ]}.

(** The resource the application registers for the task routes. *)
Definition resource : TaskResource := fst (__init__ config_DEFAULT interpreter).

(** A response object as falcon hands it to a responder. *)
Definition fresh : Response := {| status := "200 OK"; body := None; location := None |}.

(** A request whose body is the JSON object with the entries [payload]. *)
Definition json (payload : list (string * pyval)) : request :=
  {| _headers := []; stream := Some (list_to_map payload) |}.

(** A request without a body. *)
Definition no_body : request := {| _headers := []; stream := None |}.

(** The requests and worlds the claims are tried on. *)
Definition new_task : request :=
  json [("repository", PStr "registry/busybox"); ("name", PStr "nightly")].

Definition one_task : backend := {|
  rows := [{| Task.id := 1; Task.repository := "registry/busybox"; Task.name := "nightly" |}];
  db_up := true; next_session := 1%nat; open_sessions := [];
  jobs := []; redis_up := true
|}.

Definition database_down : backend := {|
  rows := []; db_up := false; next_session := 0%nat; open_sessions := [];
  jobs := []; redis_up := true
|}.

Definition redis_down : backend := {|
  rows := []; db_up := true; next_session := 0%nat; open_sessions := [];
  jobs := []; redis_up := false
|}.

Definition lookup_fails (c : call) : option exn :=
  match c with
  | find_by_id_ _ _ | find_all_ _ => Some (Error "OperationalError")
  | _ => None
  end.

Definition serialize_fails (c : call) : option exn :=
  match c with
  | serialize_ _ | serialize_tasks_ _ => Some (TypeError "not JSON serializable")
  | _ => None
  end.

(** A response object that already carries a status, a body and a
    location. *)
Definition used : Response :=
  {| status := "404 Not Found"; body := Some "stale"; location := Some "/task/9/" |}.

(** The keywords of [redis.StrictRedis.__init__]. *)
Definition StrictRedis_keywords : list string :=
  ["host"; "port"; "db"; "password"; "socket_timeout"; "connection_pool"; "charset";
   "errors"; "decode_responses"; "unix_socket_path"].

Definition known (k : string) : bool := bool_decide (k ∈ StrictRedis_keywords).

Definition release_fails (c : call) : option exn :=
  match c with
  | close_db_session_ _ => Some (Error "InvalidRequestError")
  | _ => None
  end.


(** What happens to the world: a request is served by a resource, or the
    database or the queue backend goes down or comes back. *)
Inductive action : Type :=
| GET (task_id : option string) (req : request)
| POST (task_id : option string) (req : request)
| Database (up : bool)
| Redis (up : bool).

(** The world after an action.  A responder that raises leaves the world as
    it was when the exception left it. *)
Definition serve (self : TaskResource) (w : backend) (a : action) : backend :=
  match a with
  | GET task_id req => world (snd (handle (on_get collab self req task_id) fresh w))
  | POST task_id req => world (snd (handle (on_post collab self req task_id) fresh w))
  | Database up =>
      {| rows := rows w; db_up := up; next_session := next_session w;
         open_sessions := open_sessions w; jobs := jobs w; redis_up := redis_up w |}
  | Redis up =>
      {| rows := rows w; db_up := db_up w; next_session := next_session w;
         open_sessions := open_sessions w; jobs := jobs w; redis_up := up |}
  end.

Definition serve_all (self : TaskResource) (w : backend) (actions : list action) : backend :=
  foldl (serve self) w actions.

End Model.

(** * Properties of the handlers *)

(** Runs the two guarded handlers down to the calls they make. *)
Ltac unfold_all :=
  unfold handle, _create_new_task, on_get, release, create_db_session, close_db_session,
    create_unique_task, find_by_id, find_all, serialize, serialize_tasks,
    try_except_finally, bind, ret, enter, ext, set_status, set_body, set_location,
    set_session, get_session, get_resp; cbn.

Section Handlers.
Context {World Request Raw : Type} (C : Collab World Request Raw).
Implicit Types (self : TaskResource) (w : World).

Lemma for_each_cons {A} (x : A) xs (body : A → M World ()) (st : state World) :
  for_each (x :: xs) body st =
  match body x st with
  | (Returns _, st') => for_each xs body st'
  | (Raises e, st') => (Raises e, st')
  end.
Proof. reflexivity. Qed.

Lemma for_each_enqueue q f t o (xs : list Z) (st : state World) :
  let c := enqueue_ q f t o in
  let r := for_each xs (λ _, enqueue C q f t o) st in
  resp (snd r) = resp st ∧ session (snd r) = session st ∧
  ((fst r = Returns () ∧ trace (snd r) = trace st ++ replicate (length xs) (c, None)) ∨
   (∃ e k, (k < length xs)%nat ∧ fst r = Raises e ∧
           trace (snd r) = trace st ++ replicate k (c, None) ++ [(c, Some e)])).
Proof.
  revert st. induction xs as [|x xs IH]; intros st c r; subst r c.
  - simpl. split; [done|]. split; [done|]. left. by rewrite app_nil_r.
  - rewrite for_each_cons.
    change (enqueue C q f t o st) with (ext (enqueue_ q f t o) (Queue_enqueue C q f t o) st).
    unfold ext.
    destruct (Queue_enqueue C q f t o (world st)) as [[[]|e] w1] eqn:E;
      cbv beta iota; simpl raised.
    + specialize (IH (State w1 (resp st) (session st) (trace st ++ [(enqueue_ q f t o, None)]))).
      simpl in IH. destruct IH as (Hr & Hs & IH). split; [exact Hr|]. split; [exact Hs|].
      destruct IH as [[Ho Ht]|(e & k & Hk & Ho & Ht)].
      * left. split; [done|]. rewrite Ht. by rewrite <- app_assoc.
      * right. exists e, (S k). split; [simpl; lia|]. split; [done|]. rewrite Ht. by rewrite <- app_assoc.
    + simpl. split; [done|]. split; [done|]. right. exists e, 0%nat. split; [lia|]. done.
Qed.

Lemma bind_run {A B} (m : M World A) (k : A → M World B) (st : state World) :
  bind m k st =
  match m st with
  | (Returns a, st') => k a st'
  | (Raises e, st') => (Raises e, st')
  end.
Proof. reflexivity. Qed.

(** While the queue backend accepts jobs ([up], which a submission keeps),
    the loop runs to its end. *)
Lemma for_each_enqueue_returns (up : World → Prop) q f t o (xs : list Z) (st : state World) :
  (∀ w', up w' → Queue_enqueue C q f t o w' = (Returns (), snd (Queue_enqueue C q f t o w'))
                 ∧ up (snd (Queue_enqueue C q f t o w'))) →
  up (world st) →
  fst (for_each xs (λ _, enqueue C q f t o) st) = Returns ().
Proof.
  intros Hok. revert st. induction xs as [|x xs IH]; intros st Hup; [done|].
  rewrite for_each_cons.
  change (enqueue C q f t o st) with (ext (enqueue_ q f t o) (Queue_enqueue C q f t o) st).
  unfold ext. destruct (Hok (world st) Hup) as [E Hup']. rewrite E. cbn. by apply IH.
Qed.

Lemma _execute_task_eq self task_id times operation (st : state World) n :
  as_int times = Some n →
  _execute_task C self task_id times operation st =
  match for_each (seqZ 0 n) (λ _, enqueue C (q self) execute_worker task_id operation)
          (State (world st) (with_status (resp st) HTTP_200) (session st) (trace st)) with
  | (Returns _, st2) => (Returns (resp st2), st2)
  | (Raises e, st2) => (Raises e, st2)
  end.
Proof.
  intros Hn. unfold _execute_task, bind, set_status, range. rewrite Hn.
  unfold ret, get_resp. by rewrite Z.sub_0_r.
Qed.

(** The enqueue loop of [_execute_task]: the status is set first; then either
    every call returns and the handler returns the response, or the first
    call that raises ends the handler with its exception. *)
Lemma _execute_task_run self task_id times operation (st : state World) n :
  as_int times = Some n →
  let c := enqueue_ (q self) execute_worker task_id operation in
  let r := _execute_task C self task_id times operation st in
  resp (snd r) = with_status (resp st) HTTP_200 ∧
  ((fst r = Returns (resp (snd r)) ∧
    trace (snd r) = trace st ++ replicate (Z.to_nat n) (c, None)) ∨
   (∃ e k, (k < Z.to_nat n)%nat ∧ fst r = Raises e ∧
           trace (snd r) = trace st ++ replicate k (c, None) ++ [(c, Some e)])).
Proof.
  intros Hn c r. subst r c. rewrite (_execute_task_eq _ _ _ _ _ _ Hn).
  pose proof (for_each_enqueue (q self) execute_worker task_id operation (seqZ 0 n)
    (State (world st) (with_status (resp st) HTTP_200) (session st) (trace st))) as H.
  cbv zeta in H. rewrite length_seqZ in H.
  destruct (for_each _ _ _) as [[[]|e] st2]; simpl in H |- *.
  - destruct H as (Hr & _ & [[_ Ht]|(e & k & _ & ? & _)]); [|done].
    split; [done|]. by left.
  - destruct H as (Hr & _ & [[? _]|(e' & k & Hk & He & Ht)]); [done|].
    split; [done|]. right. exists e', k. split; [exact Hk|]. split; [congruence|exact Ht].
Qed.

Lemma on_post_execute self req task_id :
  truthy task_id = true →
  on_post C self req task_id =
  _execute_task C self task_id
    (get (api_utils__raw_to_dict C (api_utils__read_stream C req)) "times" (PInt 1))
    (get (api_utils__raw_to_dict C (api_utils__read_stream C req)) "operation" (PStr "RUN")).
Proof. intros H. unfold on_post. by rewrite H. Qed.

Lemma on_post_create self req task_id :
  truthy task_id = false →
  on_post C self req task_id =
  _create_new_task C self
    (get (api_utils__raw_to_dict C (api_utils__read_stream C req)) "repository" PNone)
    (get (api_utils__raw_to_dict C (api_utils__read_stream C req)) "name" PNone).
Proof. intros H. unfold on_post. by rewrite H. Qed.

Lemma _execute_task_status self task_id times operation (st : state World) :
  status (resp (snd (_execute_task C self task_id times operation st))) = HTTP_200.
Proof.
  destruct (as_int times) as [n|] eqn:Hn.
  - destruct (_execute_task_run self task_id times operation st n Hn) as [-> _]. done.
  - unfold _execute_task, bind, set_status, range. rewrite Hn. done.
Qed.

(** C6: on POST /task/{id} the status is 200 whatever the queue does, and
    nothing catches a failed submission: the status of the response is
    [HTTP_200] at the end of every run, whether the handler returned or
    raised; and every call that raised is an [enqueue] whose exception is the
    one the handler ends with. *)
Theorem execute_sets_200_and_lets_enqueue_errors_through self req task_id resp0 w :
  truthy task_id = true →
  let r := handle (on_post C self req task_id) resp0 w in
  status (resp (snd r)) = HTTP_200 ∧
  ∀ c e, (c, Some e) ∈ trace (snd r) →
    (∃ operation, c = enqueue_ (q self) execute_worker task_id operation) ∧
    fst r = Raises e.
Proof.
  intros Ht r. subst r. unfold handle. rewrite (on_post_execute _ _ _ Ht).
  split; [apply _execute_task_status|].
  intros c e Hin.
  destruct (as_int (get (api_utils__raw_to_dict C (api_utils__read_stream C req)) "times" (PInt 1)))
    as [n|] eqn:Hn.
  - destruct (_execute_task_run self task_id _
      (get (api_utils__raw_to_dict C (api_utils__read_stream C req)) "operation" (PStr "RUN"))
      (State w resp0 None []) n Hn) as [_ [[_ Htr]|(e' & k & _ & Ho & Htr)]];
      rewrite Htr in Hin; simpl in Hin.
    + apply elem_of_replicate in Hin as [[=] _].
    + apply elem_of_app in Hin as [Hin|Hin].
      * apply elem_of_replicate in Hin as [[=] _].
      * apply list_elem_of_singleton in Hin as [= -> ->]. eauto.
  - revert Hin. unfold _execute_task, bind, set_status, range. rewrite Hn. simpl.
    by intros ?%elem_of_nil.
Qed.

(** C10: on POST /task/{id} with an integer [times] that is zero or negative
    the handler returns the response with status 200 and has called no
    collaborator at all: the trace is empty and the world is the one it
    started in. *)
Theorem nonpositive_times_enqueues_nothing self req task_id resp0 w z :
  truthy task_id = true →
  api_utils__raw_to_dict C (api_utils__read_stream C req) !! "times" = Some (PInt z) →
  z ≤ 0 →
  handle (on_post C self req task_id) resp0 w =
  (Returns (with_status resp0 HTTP_200), State w (with_status resp0 HTTP_200) None []).
Proof.
  intros Ht Hz Hle. unfold handle. rewrite (on_post_execute _ _ _ Ht).
  unfold get at 1. rewrite Hz. simpl.
  rewrite (_execute_task_eq _ _ (PInt z) _ _ z eq_refl). by rewrite seqZ_nil.
Qed.

(** C2, amended: on POST /task/{id} with [operation] read from the payload
    (default ["RUN"]) and [times] read from it (default [1]), when [times] is
    an integer [n] and the queue backend accepts jobs, the handler returns
    the response with status 200 after exactly [max n 0] calls of [enqueue],
    which is [n] calls when [n] is not negative, all on the queue named
    ["default"] of the resource and all with the same
    [(task_id, operation)]. *)
Theorem execute_enqueues_times_jobs (up : World → Prop) DEFAULT (h : heap)
    req task_id resp0 w n :
  truthy task_id = true →
  let self := fst (__init__ DEFAULT h) in
  let parsed_json := api_utils__raw_to_dict C (api_utils__read_stream C req) in
  let operation := get parsed_json "operation" (PStr "RUN") in
  let times := get parsed_json "times" (PInt 1) in
  as_int times = Some n →
  (∀ w', up w' →
     Queue_enqueue C (q self) execute_worker task_id operation w'
     = (Returns (), snd (Queue_enqueue C (q self) execute_worker task_id operation w')) ∧
     up (snd (Queue_enqueue C (q self) execute_worker task_id operation w'))) →
  up w →
  let r := handle (on_post C self req task_id) resp0 w in
  let enqueued := trace (snd r) in
  fst r = Returns (with_status resp0 HTTP_200) ∧
  enqueued = replicate (Z.to_nat n) (enqueue_ (q self) execute_worker task_id operation, None) ∧
  q_name (q self) = "default" ∧
  (0 ≤ n → Z.of_nat (length enqueued) = n) ∧
  (parsed_json !! "operation" = None → operation = PStr "RUN") ∧
  (parsed_json !! "times" = None → n = 1).
Proof.
  intros Ht self parsed_json operation times Hn Hok Hup r enqueued. subst r enqueued.
  unfold handle. rewrite (on_post_execute _ _ _ Ht).
  fold parsed_json. fold operation. fold times.
  destruct (_execute_task_run self task_id times operation (State w resp0 None []) n Hn)
    as [Hr [[Ho Htr]|(e & k & _ & Ho & Htr)]].
  - rewrite Ho, Hr, Htr. simpl. split; [done|]. split; [done|]. split; [done|].
    split; [intros; rewrite length_replicate; lia|].
    split.
    + intros Hnone. subst operation. unfold get. by rewrite Hnone.
    + intros Hnone. subst times. unfold get in Hn. rewrite Hnone in Hn. simpl in Hn. congruence.
  - exfalso. revert Ho. rewrite (_execute_task_eq _ _ _ _ _ _ Hn).
    pose proof (for_each_enqueue_returns up (q self) execute_worker task_id operation
      (seqZ 0 n) (State w (with_status resp0 HTTP_200) None []) Hok Hup) as Hret.
    simpl. destruct (for_each _ _ _) as [[[]|e'] st2]; done.
Qed.


(** C5, amended: on GET /task/{id} the status is 200 and the body is the
    serialized Task when the lookup finds one, 404 when it finds none, and
    500 when the lookup or the serialization raises; in each of these cases
    the handler returns the response once the session is released.  An
    exception of the release itself is not caught: the handler ends with it,
    and the status stays the one that was set. *)
Theorem get_task_status self req task_id resp0 w :
  truthy task_id = true →
  let r := handle (on_get C self req task_id) resp0 w in
  (∀ s w1 t w2 b w3,
     utils_create_db_session C w = (Returns s, w1) →
     Task_find_by_id C s task_id w1 = (Returns (Some t), w2) →
     Task_serialize C t w2 = (Returns b, w3) →
     status (resp (snd r)) = HTTP_200 ∧ body (resp (snd r)) = Some b ∧
     (∀ w4, utils_close_db_session C s w3 = (Returns (), w4) →
            fst r = Returns (resp (snd r))) ∧
     (∀ e w4, utils_close_db_session C s w3 = (Raises e, w4) → fst r = Raises e)) ∧
  (∀ s w1 w2,
     utils_create_db_session C w = (Returns s, w1) →
     Task_find_by_id C s task_id w1 = (Returns None, w2) →
     status (resp (snd r)) = HTTP_404 ∧
     (∀ w3, utils_close_db_session C s w2 = (Returns (), w3) →
            fst r = Returns (resp (snd r))) ∧
     (∀ e w3, utils_close_db_session C s w2 = (Raises e, w3) → fst r = Raises e)) ∧
  (∀ s w1 e w2,
     utils_create_db_session C w = (Returns s, w1) →
     Task_find_by_id C s task_id w1 = (Raises e, w2) →
     status (resp (snd r)) = HTTP_500 ∧
     (∀ w3, utils_close_db_session C s w2 = (Returns (), w3) →
            fst r = Returns (resp (snd r))) ∧
     (∀ e' w3, utils_close_db_session C s w2 = (Raises e', w3) → fst r = Raises e')) ∧
  (∀ s w1 t w2 e w3,
     utils_create_db_session C w = (Returns s, w1) →
     Task_find_by_id C s task_id w1 = (Returns (Some t), w2) →
     Task_serialize C t w2 = (Raises e, w3) →
     status (resp (snd r)) = HTTP_500 ∧
     (∀ w4, utils_close_db_session C s w3 = (Returns (), w4) →
            fst r = Returns (resp (snd r))) ∧
     (∀ e' w4, utils_close_db_session C s w3 = (Raises e', w4) → fst r = Raises e')).
Proof.
  intros Ht r. subst r. split_and!.
  - intros s w1 t w2 b w3 E1 E2 E3. unfold_all. rewrite E1, Ht. cbn. rewrite E2. cbn.
    rewrite E3. cbn. destruct (utils_close_db_session C s w3) as [[[]|e] w4]; cbn;
      split_and!; try done; intros; by simplify_eq.
  - intros s w1 w2 E1 E2. unfold_all. rewrite E1, Ht. cbn. rewrite E2. cbn.
    destruct (utils_close_db_session C s w2) as [[[]|e] w4]; cbn;
      split_and!; try done; intros; by simplify_eq.
  - intros s w1 e w2 E1 E2. unfold_all. rewrite E1, Ht. cbn. rewrite E2. cbn.
    destruct (utils_close_db_session C s w2) as [[[]|e'] w4]; cbn;
      split_and!; try done; intros; by simplify_eq.
  - intros s w1 t w2 e w3 E1 E2 E3. unfold_all. rewrite E1, Ht. cbn. rewrite E2. cbn.
    rewrite E3. cbn. destruct (utils_close_db_session C s w3) as [[[]|e'] w4]; cbn;
      split_and!; try done; intros; by simplify_eq.
Qed.


(** C7, amended: on the POST /task success path (201 or 409) the location
    is ["/" + str(resp) + "/task/" + str(task.id) + "/"]: its first segment
    is the text of the response object, as it is once the status is set, and
    its last segment is the id of the Task that create-if-absent returned. *)
Theorem location_names_response_and_task_id self req task_id resp0 w s w1 t created w2 :
  truthy task_id = false →
  let parsed_json := api_utils__raw_to_dict C (api_utils__read_stream C req) in
  utils_create_db_session C w = (Returns s, w1) →
  Task_create_unique_task C s (get parsed_json "repository" PNone)
    (get parsed_json "name" PNone) w1 = (Returns (t, created), w2) →
  let r := handle (on_post C self req task_id) resp0 w in
  let answered := with_status resp0 (if created then HTTP_201 else HTTP_409) in
  location (resp (snd r)) =
  Some ("/" +:+ str_Response C answered +:+ "/task/" +:+ pretty (Task.id t) +:+ "/").
Proof.
  intros Ht parsed_json E1 E2 r answered. subst r answered.
  rewrite (on_post_create _ _ _ Ht). fold parsed_json.
  unfold_all. rewrite E1. cbn. rewrite E2.
  destruct created; cbn;
    destruct (utils_close_db_session C s w2) as [[[]|e] w3]; cbn; done.
Qed.

(** C8: the release of the session when its acquisition raises.  The
    [finally] clause then reads the local [session], which was never bound:
    GET /task, GET /task/{id} and POST /task all end with
    [UnboundLocalError], with [create_db_session] as their only call (and so
    no call of [close_db_session]), and with the status 500 on a response
    that is never returned. *)
Theorem unbound_session_in_cleanup self req task_id resp0 w e w1 :
  utils_create_db_session C w = (Raises e, w1) →
  let crashed : outcome Response * state World :=
    (Raises (UnboundLocalError "session"),
     State w1 (with_status resp0 HTTP_500) None [(create_db_session_, Some e)]) in
  handle (on_get C self req task_id) resp0 w = crashed ∧
  (truthy task_id = false → handle (on_post C self req task_id) resp0 w = crashed).
Proof.
  intros E1 crashed. subst crashed. split.
  - unfold_all. by rewrite E1.
  - intros Ht. rewrite (on_post_create _ _ _ Ht). unfold_all. by rewrite E1.
Qed.

(** X1: once the session is acquired, each of the two guarded handlers ends
    with the one call that releases it, whatever happened in between. *)
Lemma acquired_session_is_released self req task_id resp0 w s w1 :
  utils_create_db_session C w = (Returns s, w1) →
  ∀ r, (r = handle (on_get C self req task_id) resp0 w ∨
        truthy task_id = false ∧ r = handle (on_post C self req task_id) resp0 w) →
  ∃ calls o,
    trace (snd r) = (create_db_session_, None) :: calls ++ [(close_db_session_ s, o)] ∧
    Forall (λ ev, ¬ is_close ev) calls.
Proof.
  intros E1 r [->|[Ht ->]].
  - unfold_all. rewrite E1. cbn. destruct (truthy task_id); cbn.
    + destruct (Task_find_by_id C s task_id w1) as [[[t|]|e] w2]; cbn.
      * destruct (Task_serialize C t w2) as [[b|e] w3]; cbn;
          destruct (utils_close_db_session C s w3) as [[[]|e'] w4]; cbn;
          eexists [_; _], _; (split; [reflexivity|]);
          repeat constructor; intros [? [=]].
      * destruct (utils_close_db_session C s w2) as [[[]|e'] w4]; cbn;
          eexists [_], _; (split; [reflexivity|]);
          repeat constructor; intros [? [=]].
      * destruct (utils_close_db_session C s w2) as [[[]|e'] w4]; cbn;
          eexists [_], _; (split; [reflexivity|]);
          repeat constructor; intros [? [=]].
    + destruct (Task_find_all C s w1) as [[ts|e] w2]; cbn.
      * destruct (Task_serialize_tasks C ts w2) as [[b|e] w3]; cbn;
          [destruct (bool_decide _)|]; cbn;
          destruct (utils_close_db_session C s w3) as [[[]|e'] w4]; cbn;
          eexists [_; _], _; (split; [reflexivity|]);
          repeat constructor; intros [? [=]].
      * destruct (utils_close_db_session C s w2) as [[[]|e'] w4]; cbn;
          eexists [_], _; (split; [reflexivity|]);
          repeat constructor; intros [? [=]].
  - rewrite (on_post_create _ _ _ Ht). unfold_all. rewrite E1. cbn.
    destruct (Task_create_unique_task C s _ _ w1) as [[[t []]|e] w2]; cbn;
      destruct (utils_close_db_session C s w2) as [[[]|e'] w4]; cbn;
      eexists [_], _; (split; [reflexivity|]);
      repeat constructor; intros [? [=]].
Qed.
End Handlers.

(** * The handlers on the model *)

Section OnModel.
Variable self : TaskResource.

Lemma for_each_preserves {World A} (P : state World → Prop) (xs : list A)
    (body : A → M World ()) (st : state World) :
  (∀ x st', P st' → P (snd (body x st'))) → P st → P (snd (for_each xs body st)).
Proof.
  intros Hbody. revert st. induction xs as [|x xs IH]; intros st HP; [done|].
  rewrite for_each_cons. specialize (Hbody x st HP).
  destruct (body x st) as [[[]|e] st']; [by apply IH|done].
Qed.

Lemma rows_execute task_id times operation (st : state Model.backend) :
  Model.rows (world (snd (_execute_task Model.collab self task_id times operation st)))
  = Model.rows (world st).
Proof.
  destruct (as_int times) as [n|] eqn:Hn.
  - rewrite (_execute_task_eq _ _ _ _ _ _ _ Hn).
    pose proof (for_each_preserves
      (λ st', Model.rows (world st') = Model.rows (world st)) (seqZ 0 n)
      (λ _, enqueue Model.collab (q self) execute_worker task_id operation)
      (State (world st) (with_status (resp st) HTTP_200) (session st) (trace st))) as H.
    destruct (for_each _ _ _) as [[[]|e] st2]; apply H; try done.
    all: intros _ st' <-; unfold enqueue, ext; cbn; unfold Model.enqueue;
      by destruct (Model.redis_up (world st')).
  - unfold _execute_task, bind, set_status, range. by rewrite Hn.
Qed.

Lemma rows_on_get req task_id resp0 w :
  Model.rows (world (snd (handle (on_get Model.collab self req task_id) resp0 w)))
  = Model.rows w.
Proof.
  unfold_all. unfold Model.create_db_session. destruct (Model.db_up w); cbn; [|done].
  destruct (truthy task_id); cbn; [|by destruct (bool_decide _)].
  by destruct (list_find _ _) as [[i t]|].
Qed.

(** What [_create_new_task] does to the store: nothing, or one row appended
    whose key no stored row has. *)
Lemma rows_create_new_task repository name resp0 w :
  let w' := world (snd (handle (_create_new_task Model.collab self repository name) resp0 w)) in
  Model.rows w' = Model.rows w ∨
  ∃ t, Model.rows w' = Model.rows w ++ [t] ∧ Model.key t ∉ Model.key <$> Model.rows w.
Proof.
  unfold_all. unfold Model.create_db_session. destruct (Model.db_up w); cbn; [|by left].
  unfold Model.create_unique_task.
  destruct repository as [| | |r|]; cbn; try by left.
  destruct name as [| | |n|]; cbn; try by left.
  unfold Model.find_key.
  destruct (list_find _ (Model.rows w)) as [[i t]|] eqn:Hfind; cbn; [by left|].
  right. eexists. split; [reflexivity|]. cbn.
  apply list_find_None in Hfind. rewrite Forall_forall in Hfind.
  intros (t & Hk & Hin)%list_elem_of_fmap. by apply (Hfind t Hin).
Qed.

Lemma serve_rows w a :
  Model.rows (Model.serve self w a) = Model.rows w ∨
  ∃ t, Model.rows (Model.serve self w a) = Model.rows w ++ [t] ∧
       Model.key t ∉ Model.key <$> Model.rows w.
Proof.
  destruct a as [task_id req|task_id req|up|up]; unfold Model.serve; try by left.
  - left. apply rows_on_get.
  - destruct (truthy task_id) eqn:Ht.
    + left. unfold handle. rewrite (on_post_execute _ _ _ _ Ht). apply rows_execute.
    + rewrite (on_post_create _ _ _ _ Ht). apply rows_create_new_task.
Qed.

Lemma serve_all_unique w actions :
  NoDup (Model.key <$> Model.rows w) →
  NoDup (Model.key <$> Model.rows (Model.serve_all self w actions)).
Proof.
  revert w. induction actions as [|a actions IH]; intros w Hw; [done|].
  cbn. apply IH.
  destruct (serve_rows w a) as [->|(t & -> & Hfresh)]; [done|].
  rewrite fmap_app. apply NoDup_app. split; [done|]. split.
  - intros k Hk ->%list_elem_of_singleton. done.
  - apply NoDup_singleton.
Qed.

(** With unique keys, looking a stored Task up by its key finds that Task. *)
Lemma find_key_stored (l : list Task.t) t :
  NoDup (Model.key <$> l) → t ∈ l → Model.find_key (Model.key t) l = Some t.
Proof.
  intros Hnd Hin. unfold Model.find_key.
  destruct (list_find _ l) as [[i t']|] eqn:Hfind; cbn.
  - apply list_find_Some in Hfind as (Hi & Hk & _).
    apply list_elem_of_lookup in Hin as [j Hj].
    assert (i = j) as ->; [|congruence].
    apply (NoDup_lookup _ i j (Model.key t) Hnd); rewrite list_lookup_fmap.
    + by rewrite Hi; cbn; rewrite Hk.
    + by rewrite Hj.
  - apply list_find_None in Hfind. rewrite Forall_forall in Hfind.
    by destruct (Hfind t Hin).
Qed.

(** C3: in the model of the store, whatever requests were served and
    whatever went down in between, no two Task rows share a
    (repository, name) pair; and a POST /task for a stored pair answers 409,
    leaves the rows as they are, and its create-if-absent returns the stored
    Task. *)
Theorem task_key_is_unique actions :
  let w := Model.serve_all self Model.empty actions in
  NoDup (Model.key <$> Model.rows w) ∧
  ∀ req task_id resp0 r n t,
    truthy task_id = false →
    Model._raw_to_dict (Model._read_stream req) !! "repository" = Some (PStr r) →
    Model._raw_to_dict (Model._read_stream req) !! "name" = Some (PStr n) →
    t ∈ Model.rows w → Model.key t = (r, n) →
    Model.db_up w = true →
    let served := handle (on_post Model.collab self req task_id) resp0 w in
    status (resp (snd served)) = HTTP_409 ∧
    Model.rows (world (snd served)) = Model.rows w ∧
    ∀ s w', Model.rows w' = Model.rows w →
      Model.create_unique_task s (PStr r) (PStr n) w' = (Returns (t, false), w').
Proof.
  intros w.
  assert (Hnd : NoDup (Model.key <$> Model.rows w)).
  { apply serve_all_unique. cbn. apply NoDup_nil_2. }
  split; [done|].
  intros req task_id resp0 r n t Ht Hr Hn Hin Hkey Hup served.
  pose proof (find_key_stored _ _ Hnd Hin) as Hfind. rewrite Hkey in Hfind.
  subst served. rewrite (on_post_create _ _ _ _ Ht).
  change (api_utils__raw_to_dict Model.collab (api_utils__read_stream Model.collab req))
    with (Model._raw_to_dict (Model._read_stream req)).
  unfold get. rewrite Hr, Hn. cbn [default from_option].
  unfold_all. unfold Model.create_db_session. rewrite Hup. cbn.
  unfold Model.find_key in Hfind.
  destruct (list_find _ (Model.rows w)) as [[i t']|] eqn:E; cbn in Hfind; [|done].
  injection Hfind as ->. cbn.
  split; [done|]. split; [done|].
  intros s w' Hrows. unfold Model.create_unique_task, Model.find_key. by rewrite Hrows, E.
Qed.
End OnModel.

(** * The redis configuration *)

Section Config.
Variable DEFAULT : loc.

Lemma alter_update_empty (h : heap) l : alter (λ d, update d ∅) l h = h.
Proof.
  apply map_eq. intros i. destruct (decide (i = l)) as [->|Hne].
  - rewrite lookup_alter_eq. destruct (h !! l) as [d|]; cbn; [|done].
    unfold update. by rewrite (left_id_L ∅ (∪)).
  - by rewrite lookup_alter_ne.
Qed.

Lemma __init___heap (h : heap) : snd (__init__ DEFAULT h) = h.
Proof. unfold __init__, _create_queue. cbn. apply alter_update_empty. Qed.

Lemma __init___redis_config (h : heap) : redis_config (fst (__init__ DEFAULT h)) = DEFAULT.
Proof. done. Qed.

Lemma __init___q_name (h : heap) : q_name (q (fst (__init__ DEFAULT h))) = "default".
Proof. done. Qed.

(** C9, amended: a resource does not copy the global configuration: the
    [redis_config] of every instance is the address [config.DEFAULT] holds.
    Constructing instances leaves the dictionary as it is (no keyword is
    given), and the keywords [_create_queue] is given through one instance
    are written into that one dictionary, where [config.DEFAULT] and every
    other instance read them. *)
Theorem redis_config_is_the_global_default (h : heap) d name kwargs :
  h !! DEFAULT = Some d →
  let a := fst (__init__ DEFAULT h) in
  let h1 := snd (__init__ DEFAULT h) in
  let b := fst (__init__ DEFAULT h1) in
  let h2 := snd (__init__ DEFAULT h1) in
  let h3 := snd (_create_queue (redis_config a) name kwargs h2) in
  redis_config a = DEFAULT ∧ redis_config b = DEFAULT ∧
  h2 = h ∧
  h3 !! DEFAULT = Some (update d kwargs) ∧
  h3 !! redis_config b = Some (update d kwargs) ∧
  (∀ k v, kwargs !! k = Some v → update d kwargs !! k = Some v) ∧
  (kwargs = ∅ → h3 = h).
Proof.
  intros Hd a h1 b h2 h3.
  assert (h1 = h) as E1 by apply __init___heap.
  assert (h2 = h) as E2 by (subst h2; rewrite E1; apply __init___heap).
  assert (E3 : h3 !! DEFAULT = Some (update d kwargs)).
  { subst h3. rewrite E2. cbn. by rewrite lookup_alter_eq, Hd. }
  split_and!; try done.
  - intros k v Hk. unfold update. by apply lookup_union_Some_l.
  - intros ->. subst h3. rewrite E2. cbn. apply alter_update_empty.
Qed.
End Config.

(** * The claims at concrete requests *)


(** C5, amended, at five requests: a stored id, an unknown id, a failing
    lookup, a failing serialization, and a release that raises after the
    Task was found. *)
Lemma get_task_status_witness :
  (let r := resp (snd (handle (on_get Model.collab Model.resource Model.no_body (Some "1"))
                         Model.fresh Model.one_task)) in
   status r = HTTP_200 ∧
   body r = Some "{id: 1, repository: registry/busybox, name: nightly}") ∧
  status (resp (snd (handle (on_get Model.collab Model.resource Model.no_body (Some "7"))
                       Model.fresh Model.one_task))) = HTTP_404 ∧
  status (resp (snd (handle (on_get (Model.faulty Model.lookup_fails) Model.resource
                               Model.no_body (Some "1"))
                       Model.fresh Model.one_task))) = HTTP_500 ∧
  status (resp (snd (handle (on_get (Model.faulty Model.serialize_fails) Model.resource
                               Model.no_body (Some "1"))
                       Model.fresh Model.one_task))) = HTTP_500 ∧
  fst (handle (on_get (Model.faulty Model.release_fails) Model.resource
                 Model.no_body (Some "1"))
         Model.fresh Model.one_task) = Raises (Error "InvalidRequestError").
Proof.
  pose proof (get_task_status Model.collab Model.resource Model.no_body (Some "1")
                Model.fresh Model.one_task eq_refl) as (Hfound & _).
  pose proof (get_task_status Model.collab Model.resource Model.no_body (Some "7")
                Model.fresh Model.one_task eq_refl) as (_ & Hmissing & _).
  pose proof (get_task_status (Model.faulty Model.lookup_fails) Model.resource Model.no_body
                (Some "1") Model.fresh Model.one_task eq_refl) as (_ & _ & Hlookup & _).
  pose proof (get_task_status (Model.faulty Model.serialize_fails) Model.resource
                Model.no_body (Some "1") Model.fresh Model.one_task eq_refl)
    as (_ & _ & _ & Hserialize).
  pose proof (get_task_status (Model.faulty Model.release_fails) Model.resource
                Model.no_body (Some "1") Model.fresh Model.one_task eq_refl)
    as (Hrelease & _).
  split_and!.
  - cbv zeta. edestruct Hfound as (H1 & H2 & _); [reflexivity..|]. split; [exact H1|exact H2].
  - eapply Hmissing; reflexivity.
  - eapply Hlookup; reflexivity.
  - eapply Hserialize; reflexivity.
  - edestruct Hrelease as (_ & _ & _ & Hraise); [reflexivity..|].
    eapply Hraise. reflexivity.
Defined.

(** C5 as stated fails when the release raises: the Task was found, the
    handler ends with the exception of [close_db_session], and the status is
    200, not 500. *)
Lemma release_failure_leaves_200 :
  let r := handle (on_get (Model.faulty Model.release_fails) Model.resource
                     Model.no_body (Some "1"))
             Model.fresh Model.one_task in
  fst r = Raises (Error "InvalidRequestError") ∧
  status (resp (snd r)) = HTTP_200 ∧
  status (resp (snd r)) ≠ HTTP_500.
Proof. cbv zeta. split_and!; [reflexivity..|]. vm_compute. discriminate. Qed.

Example one_task_is_served :
  Model.serve Model.resource Model.empty (Model.POST None Model.new_task) = Model.one_task.
Proof. reflexivity. Qed.


(** C6 with the queue backend down. *)
Lemma execute_sets_200_and_lets_enqueue_errors_through_witness :
  let r := handle (on_post Model.collab Model.resource
                     (Model.json [("times", PInt 3)]) (Some "1"))
             Model.fresh Model.redis_down in
  status (resp (snd r)) = HTTP_200 ∧ fst r = Raises (Error "ConnectionError").
Proof.
  cbv zeta.
  pose proof (execute_sets_200_and_lets_enqueue_errors_through Model.collab Model.resource
                (Model.json [("times", PInt 3)]) (Some "1") Model.fresh Model.redis_down
                eq_refl) as [H200 Hraise].
  split; [exact H200|].
  eapply (Hraise (enqueue_ (q Model.resource) execute_worker (Some "1") (PStr "RUN"))).
  vm_compute. apply list_elem_of_here.
Defined.

(** C10 at [times = -2]. *)
Lemma nonpositive_times_enqueues_nothing_witness :
  handle (on_post Model.collab Model.resource (Model.json [("times", PInt (-2))]) (Some "1"))
    Model.fresh Model.one_task
  = (Returns (with_status Model.fresh HTTP_200),
     State Model.one_task (with_status Model.fresh HTTP_200) None []).
Proof.
  apply (nonpositive_times_enqueues_nothing Model.collab Model.resource
           (Model.json [("times", PInt (-2))]) (Some "1") Model.fresh Model.one_task (-2));
    [reflexivity|reflexivity|lia].
Defined.

(** C2, amended, at [times = 3] with an operation, and at a request
    without a body. *)
Lemma execute_enqueues_times_jobs_witness :
  let three := handle (on_post Model.collab Model.resource
                         (Model.json [("times", PInt 3); ("operation", PStr "STOP")])
                         (Some "1"))
                 Model.fresh Model.one_task in
  let plain := handle (on_post Model.collab Model.resource Model.no_body (Some "1"))
                 Model.fresh Model.one_task in
  (fst three = Returns (with_status Model.fresh HTTP_200) ∧
   trace (snd three)
   = replicate 3 (enqueue_ (q Model.resource) execute_worker (Some "1") (PStr "STOP"), None)) ∧
  (fst plain = Returns (with_status Model.fresh HTTP_200) ∧
   trace (snd plain)
   = [(enqueue_ (q Model.resource) execute_worker (Some "1") (PStr "RUN"), None)]).
Proof.
  cbv zeta.
  assert (Hup : ∀ t o w', Model.redis_up w' = true →
            Model.enqueue (q Model.resource) execute_worker t o w'
            = (Returns (), snd (Model.enqueue (q Model.resource) execute_worker t o w')) ∧
            Model.redis_up (snd (Model.enqueue (q Model.resource) execute_worker t o w')) = true).
  { intros t o w' Hw'. unfold Model.enqueue. by rewrite Hw'. }
  split.
  - destruct (execute_enqueues_times_jobs Model.collab (λ w', Model.redis_up w' = true)
                Model.config_DEFAULT Model.interpreter
                (Model.json [("times", PInt 3); ("operation", PStr "STOP")]) (Some "1")
                Model.fresh Model.one_task 3 eq_refl eq_refl (Hup _ _) eq_refl)
      as (H1 & H2 & _).
    split; [exact H1|exact H2].
  - destruct (execute_enqueues_times_jobs Model.collab (λ w', Model.redis_up w' = true)
                Model.config_DEFAULT Model.interpreter
                Model.no_body (Some "1")
                Model.fresh Model.one_task 1 eq_refl eq_refl (Hup _ _) eq_refl)
      as (H1 & H2 & _).
    split; [exact H1|exact H2].
Defined.

(** C2 as stated fails for a negative [times]: with [times = -1] no job is
    enqueued, which is not [-1] jobs. *)
Lemma negative_times_enqueues_no_job :
  let request := Model.json [("times", PInt (-1))] in
  let served := handle (on_post Model.collab Model.resource request (Some "1"))
                  Model.fresh Model.one_task in
  get (Model._raw_to_dict (Model._read_stream request)) "times" (PInt 1) = PInt (-1) ∧
  trace (snd served) = [] ∧
  Model.jobs (world (snd served)) = [] ∧
  Z.of_nat (length (Model.jobs (world (snd served)))) ≠ -1.
Proof. cbv zeta. split_and!; [reflexivity..|]. vm_compute. discriminate. Qed.

(** C7, amended, at the first creation. *)
Lemma location_names_response_and_task_id_witness :
  location (resp (snd (handle (on_post Model.collab Model.resource Model.new_task None)
                         Model.fresh Model.empty)))
  = Some "/<falcon.response.Response object at 0x7f3a5c0d2e10>/task/1/".
Proof.
  etransitivity.
  - eapply (location_names_response_and_task_id Model.collab Model.resource Model.new_task
              None Model.fresh Model.empty _ _ _ true _ eq_refl); reflexivity.
  - reflexivity.
Defined.

(** C7 as stated fails: two creations whose response objects have the same
    text get different locations, each ending in the id of its Task. *)
Lemma location_follows_task_id :
  let first := handle (on_post Model.collab Model.resource Model.new_task None)
                 Model.fresh Model.empty in
  let second := handle (on_post Model.collab Model.resource
                          (Model.json [("repository", PStr "registry/busybox");
                                       ("name", PStr "weekly")]) None)
                  Model.fresh Model.one_task in
  Model.Response_str (resp (snd first)) = Model.Response_str (resp (snd second)) ∧
  location (resp (snd first))
  = Some "/<falcon.response.Response object at 0x7f3a5c0d2e10>/task/1/" ∧
  location (resp (snd second))
  = Some "/<falcon.response.Response object at 0x7f3a5c0d2e10>/task/2/" ∧
  location (resp (snd first)) ≠ location (resp (snd second)).
Proof. cbv zeta. split_and!; [reflexivity..|]. vm_compute. discriminate. Qed.

(** C8 with the database down. *)
Lemma unbound_session_in_cleanup_witness :
  handle (on_get Model.collab Model.resource Model.no_body None) Model.fresh Model.database_down
  = (Raises (UnboundLocalError "session"),
     State Model.database_down (with_status Model.fresh HTTP_500) None
       [(create_db_session_, Some (Error "OperationalError"))]) ∧
  handle (on_post Model.collab Model.resource Model.new_task None)
    Model.fresh Model.database_down
  = (Raises (UnboundLocalError "session"),
     State Model.database_down (with_status Model.fresh HTTP_500) None
       [(create_db_session_, Some (Error "OperationalError"))]).
Proof.
  destruct (unbound_session_in_cleanup Model.collab Model.resource Model.no_body None
              Model.fresh Model.database_down (Error "OperationalError") Model.database_down
              eq_refl) as [Hget _].
  destruct (unbound_session_in_cleanup Model.collab Model.resource Model.new_task None
              Model.fresh Model.database_down (Error "OperationalError") Model.database_down
              eq_refl) as [_ Hpost].
  split; [exact Hget|exact (Hpost eq_refl)].
Defined.

(** C9, amended, at the override [db=1]. *)
Lemma redis_config_is_the_global_default_witness :
  let a := fst (__init__ Model.config_DEFAULT Model.interpreter) in
  let b := fst (__init__ Model.config_DEFAULT Model.interpreter) in
  let h' := snd (_create_queue (redis_config a) "high" {[ "db" := PInt 1 ]} Model.interpreter) in
  h' !! redis_config b
  = Some (update {[ "host" := PStr "localhost"; "port" := PInt 6379; "db" := PInt 0 ]}
            {[ "db" := PInt 1 ]}).
Proof.
  cbv zeta.
  pose proof (redis_config_is_the_global_default Model.config_DEFAULT Model.interpreter
                {[ "host" := PStr "localhost"; "port" := PInt 6379; "db" := PInt 0 ]}
                "high" {[ "db" := PInt 1 ]} eq_refl) as H.
  cbv zeta in H. destruct H as (_ & _ & Hh & _ & Hb & _).
  rewrite Hh in Hb. exact Hb.
Defined.

(** C9 as stated fails: after [_create_queue] is given [db=1] through one
    instance, [config.DEFAULT] and another instance both read [db = 1]. *)
Lemma override_reaches_the_global_default :
  let h := Model.interpreter in
  let a := fst (__init__ Model.config_DEFAULT h) in
  let b := fst (__init__ Model.config_DEFAULT (snd (__init__ Model.config_DEFAULT h))) in
  let h' := snd (_create_queue (redis_config a) "high" {[ "db" := PInt 1 ]} h) in
  (h !! Model.config_DEFAULT) ≫= (.!! "db") = Some (PInt 0) ∧
  (h' !! Model.config_DEFAULT) ≫= (.!! "db") = Some (PInt 1) ∧
  (h' !! redis_config b) ≫= (.!! "db") = Some (PInt 1) ∧
  h' !! Model.config_DEFAULT ≠ h !! Model.config_DEFAULT ∧
  h' !! redis_config b ≠ h !! redis_config b.
Proof.
  cbv zeta. split_and!; [reflexivity..| |];
    intros H; apply (f_equal (λ d, d ≫= (.!! "db"))) in H; vm_compute in H; discriminate.
Qed.

(** C3 at a repeated POST /task. *)
Lemma task_key_is_unique_witness :
  let w := Model.serve_all Model.resource Model.empty [Model.POST None Model.new_task] in
  let served := handle (on_post Model.collab Model.resource Model.new_task None)
                  Model.fresh w in
  NoDup (Model.key <$> Model.rows w) ∧
  status (resp (snd served)) = HTTP_409 ∧
  Model.rows (world (snd served)) = Model.rows w.
Proof.
  cbv zeta.
  destruct (task_key_is_unique Model.resource [Model.POST None Model.new_task]) as [Hnd Hdup].
  split; [exact Hnd|].
  destruct (Hdup Model.new_task None Model.fresh "registry/busybox" "nightly"
              {| Task.id := 1; Task.repository := "registry/busybox"; Task.name := "nightly" |}
              eq_refl eq_refl eq_refl) as (H409 & Hrows & _).
  - vm_compute. apply list_elem_of_here.
  - reflexivity.
  - reflexivity.
  - split; [exact H409|exact Hrows].
Defined.

(** A [times] that is no integer stops the handler at [range]; a queue
    backend that is down stops it at the first job. *)
Example text_times_raises :
  let served := handle (on_post Model.collab Model.resource
                          (Model.json [("times", PStr "3")]) (Some "1"))
                  Model.fresh Model.one_task in
  fst served = Raises (TypeError "range() integer end argument expected") ∧
  status (resp (snd served)) = HTTP_200 ∧ trace (snd served) = [].
Proof. cbv zeta. split_and!; reflexivity. Qed.

Example redis_down_enqueues_no_job :
  let served := handle (on_post Model.collab Model.resource
                          (Model.json [("times", PInt 3)]) (Some "1"))
                  Model.fresh Model.redis_down in
  fst served = Raises (Error "ConnectionError") ∧
  Model.jobs (world (snd served)) = [].
Proof. cbv zeta. split; reflexivity. Qed.

(** * Further properties of the handlers *)

(** Every path of [on_get] and of [_create_new_task]: the outcome of each
    call in turn. *)
Ltac get_paths task_id :=
  unfold_all;
  match goal with |- context [utils_create_db_session ?C ?w] =>
    destruct (utils_create_db_session C w) as [[?s|?e] ?w1]; cbn;
    [ destruct (truthy task_id); cbn;
      [ destruct (Task_find_by_id C _ task_id _) as [[[?t|]|?e] ?w2]; cbn;
        [ destruct (Task_serialize C _ _) as [[?b|?e] ?w3]; cbn | | ]
      | destruct (Task_find_all C _ _) as [[?ts|?e] ?w2]; cbn;
        [ destruct (Task_serialize_tasks C _ _) as [[?b|?e] ?w3]; cbn;
          [ destruct (bool_decide _); cbn | ]
        | ] ];
      destruct (utils_close_db_session C _ _) as [[[]|?e] ?w4]; cbn
    | ]
  end.

Ltac create_paths :=
  unfold_all;
  match goal with |- context [utils_create_db_session ?C ?w] =>
    destruct (utils_create_db_session C w) as [[?s|?e] ?w1]; cbn;
    [ destruct (Task_create_unique_task C _ _ _ _) as [[[?t []]|?e] ?w2]; cbn;
      destruct (utils_close_db_session C _ _) as [[[]|?e] ?w3]; cbn
    | ]
  end.

Section Paths.
Context {World Request Raw : Type} (C : Collab World Request Raw).
Implicit Types (self : TaskResource) (w : World).

(** X10: on POST /task/{id} with a [times] that is no integer (a string, a
    float, an explicit null) the handler raises the [TypeError] of [range]
    after the status was set to 200: no job is submitted and no other call is
    made. *)
Theorem execute_rejects_non_integer_times self req task_id resp0 w :
  truthy task_id = true →
  as_int (get (api_utils__raw_to_dict C (api_utils__read_stream C req)) "times" (PInt 1))
  = None →
  handle (on_post C self req task_id) resp0 w
  = (Raises (TypeError "range() integer end argument expected"),
     State w (with_status resp0 HTTP_200) None []).
Proof.
  intros Ht Hn. unfold handle. rewrite (on_post_execute _ _ _ _ Ht).
  unfold _execute_task, bind, set_status, range. by rewrite Hn.
Qed.


(** X12: POST /task/{id} calls nothing but [enqueue]: it opens no session
    and looks no Task up, so jobs are submitted for any id, stored or
    not. *)
Theorem execute_calls_only_the_queue self req task_id resp0 w :
  truthy task_id = true →
  Forall (λ ev, is_enqueue (fst ev) = true)
    (trace (snd (handle (on_post C self req task_id) resp0 w))).
Proof.
  intros Ht. unfold handle. rewrite (on_post_execute _ _ _ _ Ht).
  set (times := get _ "times" _). set (operation := get _ "operation" _).
  destruct (as_int times) as [n|] eqn:Hn.
  - destruct (_execute_task_run C self task_id times operation (State w resp0 None []) n Hn)
      as [_ [[_ ->]|(e & k & _ & _ & ->)]]; cbn.
    + apply Forall_replicate. done.
    + apply Forall_app. split; [by apply Forall_replicate|by repeat constructor].
  - unfold _execute_task, bind, set_status, range. rewrite Hn. cbn. constructor.
Qed.

(** X8: POST /task without an id makes one call of [create_unique_task],
    with the [repository] and [name] of the payload, between the acquisition
    and the release of one session; it submits no job. *)
Theorem create_calls_the_store_once self req task_id resp0 w :
  truthy task_id = false →
  let parsed_json := api_utils__raw_to_dict C (api_utils__read_stream C req) in
  let r := handle (on_post C self req task_id) resp0 w in
  (∃ e, trace (snd r) = [(create_db_session_, Some e)]) ∨
  (∃ s o o',
     trace (snd r) =
     [(create_db_session_, None);
      (create_unique_task_ s (get parsed_json "repository" PNone)
         (get parsed_json "name" PNone), o);
      (close_db_session_ s, o')]).
Proof.
  intros Ht parsed_json r. subst r. rewrite (on_post_create _ _ _ _ Ht). fold parsed_json.
  unfold_all.
  destruct (utils_create_db_session C w) as [[s|e] w1]; cbn; [|by left; eexists].
  right.
  destruct (Task_create_unique_task C s _ _ w1) as [[[t []]|e] w2]; cbn;
    destruct (utils_close_db_session C s w2) as [[[]|e'] w3]; cbn;
    by do 3 eexists.
Qed.

(** X4: GET never creates a Task and never submits a job, with or without
    an id, on any path. *)
Theorem get_never_writes self req task_id resp0 w :
  Forall (λ ev, writes (fst ev) = false)
    (trace (snd (handle (on_get C self req task_id) resp0 w))).
Proof. get_paths task_id; by repeat constructor. Qed.

(** X2: what GET and POST /task let through.  The handler ends with an
    exception exactly when the session could not be acquired (the exception
    is then the [UnboundLocalError] of the [finally] clause) or when the
    release raised (the exception is then that of [close_db_session]); an
    exception of a lookup, a serialization or a creation never leaves the
    handler. *)
Theorem guarded_handlers_raise_only_from_session_calls self req task_id resp0 w r e :
  r = handle (on_get C self req task_id) resp0 w ∨
  truthy task_id = false ∧ r = handle (on_post C self req task_id) resp0 w →
  fst r = Raises e ↔
  (e = UnboundLocalError "session" ∧ ∃ e', trace (snd r) = [(create_db_session_, Some e')]) ∨
  (∃ s, last (trace (snd r)) = Some (close_db_session_ s, Some e)).
Proof.
  intros [->|[Ht ->]]; [get_paths task_id|rewrite (on_post_create _ _ _ _ Ht); create_paths].
  all: split; [intros ?|intros [[? [? ?]]|[? ?]]]; simplify_eq; eauto.
Qed.

Lemma resp_execute self task_id times operation (st : state World) :
  resp (snd (_execute_task C self task_id times operation st))
  = with_status (resp st) HTTP_200.
Proof.
  destruct (as_int times) as [n|] eqn:Hn.
  - by destruct (_execute_task_run C self task_id times operation st n Hn) as [-> _].
  - unfold _execute_task, bind, set_status, range. by rewrite Hn.
Qed.

(** X7: the attributes of the response a handler leaves alone: GET never
    assigns the location, POST never assigns the body, and POST /task/{id}
    never assigns the location either. *)
Theorem untouched_response_fields self req task_id resp0 w :
  location (resp (snd (handle (on_get C self req task_id) resp0 w))) = location resp0 ∧
  body (resp (snd (handle (on_post C self req task_id) resp0 w))) = body resp0 ∧
  (truthy task_id = true →
   location (resp (snd (handle (on_post C self req task_id) resp0 w))) = location resp0).
Proof.
  split_and!.
  - get_paths task_id; done.
  - destruct (truthy task_id) eqn:Ht.
    + unfold handle. rewrite (on_post_execute _ _ _ _ Ht), resp_execute. done.
    + rewrite (on_post_create _ _ _ _ Ht). create_paths; done.
  - intros Ht. unfold handle. rewrite (on_post_execute _ _ _ _ Ht), resp_execute. done.
Qed.

(** X5: on GET /task/{id} the body is assigned only together with the
    status 200: a response that ends with another status (404, 500) has the
    body it came with. *)
Theorem get_task_keeps_body_unless_200 self req task_id resp0 w :
  truthy task_id = true →
  let r := resp (snd (handle (on_get C self req task_id) resp0 w)) in
  status r ≠ HTTP_200 → body r = body resp0.
Proof.
  intros Ht r. subst r. unfold_all. rewrite Ht.
  destruct (utils_create_db_session C w) as [[s|e] w1]; cbn; [|done].
  destruct (Task_find_by_id C s task_id w1) as [[[t|]|e] w2]; cbn;
    [destruct (Task_serialize C t w2) as [[b|e] w3]; cbn| |];
    destruct (utils_close_db_session C s _) as [[[]|e'] w4]; cbn; done.
Qed.

(** X9: on POST /task without an id the location is assigned exactly on
    the paths that do not end with the status 500. *)
Theorem failed_creation_keeps_location self req task_id resp0 w :
  truthy task_id = false →
  let r := resp (snd (handle (on_post C self req task_id) resp0 w)) in
  (status r = HTTP_500 → location r = location resp0) ∧
  (status r ≠ HTTP_500 → ∃ l, location r = Some l).
Proof.
  intros Ht r. subst r. rewrite (on_post_create _ _ _ _ Ht).
  create_paths; (split; [done|]); try done; eauto.
Qed.

(** X6: every path assigns the status: GET ends with 200, 404 or 500;
    POST /task/{id} with 200; POST /task with 201, 409 or 500.  The status
    the response came with never survives. *)
Theorem statuses_of_the_task_handlers self req task_id resp0 w :
  status (resp (snd (handle (on_get C self req task_id) resp0 w)))
    ∈ [HTTP_200; HTTP_404; HTTP_500] ∧
  status (resp (snd (handle (on_post C self req task_id) resp0 w)))
    ∈ (if truthy task_id then [HTTP_200] else [HTTP_201; HTTP_409; HTTP_500]).
Proof.
  split.
  - get_paths task_id; set_solver.
  - destruct (truthy task_id) eqn:Ht.
    + unfold handle. rewrite (on_post_execute _ _ _ _ Ht), resp_execute. set_solver.
    + rewrite (on_post_create _ _ _ _ Ht). create_paths; set_solver.
Qed.

(** X3: the calls of GET, in order, by what each call gave.  When the
    session cannot be acquired that is the only call.  Otherwise GET with an
    id looks that id up, and serializes the Task the lookup returned when it
    returned one: a lookup that found nothing or raised is followed by no
    serialization.  GET without an id fetches all Tasks and serializes the
    list the fetch returned, and nothing when the fetch raised.  The release
    of the acquired session is the last call. *)
Theorem get_calls_in_order self req task_id resp0 w :
  let calls := trace (snd (handle (on_get C self req task_id) resp0 w)) in
  match utils_create_db_session C w with
  | (Raises e, _) => calls = [(create_db_session_, Some e)]
  | (Returns s, w1) =>
      ∃ o, calls =
        (create_db_session_, None) ::
        (if truthy task_id then
           match Task_find_by_id C s task_id w1 with
           | (Returns (Some t), w2) =>
               [(find_by_id_ s task_id, None);
                (serialize_ t, raised (fst (Task_serialize C t w2)))]
           | (Returns None, _) => [(find_by_id_ s task_id, None)]
           | (Raises e, _) => [(find_by_id_ s task_id, Some e)]
           end
         else
           match Task_find_all C s w1 with
           | (Returns tasks, w2) =>
               [(find_all_ s, None);
                (serialize_tasks_ tasks, raised (fst (Task_serialize_tasks C tasks w2)))]
           | (Raises e, _) => [(find_all_ s, Some e)]
           end)
        ++ [(close_db_session_ s, o)]
  end.
Proof.
  intros calls. subst calls. unfold_all.
  destruct (utils_create_db_session C w) as [[s|e] w1]; cbn; [|done].
  destruct (truthy task_id); cbn.
  - destruct (Task_find_by_id C s task_id w1) as [[[t|]|e] w2]; cbn;
      [destruct (Task_serialize C t w2) as [[b|e] w3]; cbn| |];
      destruct (utils_close_db_session C s _) as [[[]|e'] w4]; cbn;
      by eexists.
  - destruct (Task_find_all C s w1) as [[ts|e] w2]; cbn;
      [destruct (Task_serialize_tasks C ts w2) as [[b|e] w3]; cbn;
       [destruct (bool_decide _); cbn|]|];
      destruct (utils_close_db_session C s _) as [[[]|e'] w4]; cbn;
      by eexists.
Qed.

(** X13: POST reads two keys of the payload and ignores the rest:
    [operation] and [times] with an id, [repository] and [name] without.
    Two requests whose payloads agree on them are handled alike. *)
Theorem on_post_reads_two_keys self req req' task_id :
  let p := api_utils__raw_to_dict C (api_utils__read_stream C req) in
  let p' := api_utils__raw_to_dict C (api_utils__read_stream C req') in
  (if truthy task_id
   then p !! "operation" = p' !! "operation" ∧ p !! "times" = p' !! "times"
   else p !! "repository" = p' !! "repository" ∧ p !! "name" = p' !! "name") →
  on_post C self req task_id = on_post C self req' task_id.
Proof.
  intros p p' H. destruct (truthy task_id) eqn:Ht.
  - rewrite !(on_post_execute _ _ _ _ Ht). fold p p'. unfold get.
    destruct H as [-> ->]. done.
  - rewrite !(on_post_create _ _ _ _ Ht). fold p p'. unfold get.
    destruct H as [-> ->]. done.
Qed.

End Paths.

(** * Further properties of the queue configuration *)

Section Queues.
Variable known : string → bool.
Variable DEFAULT : loc.

Lemma lookup_update (d kwargs : dict) k :
  update d kwargs !! k = match kwargs !! k with Some v => Some v | None => d !! k end.
Proof. unfold update. rewrite lookup_union. destruct (kwargs !! k), (d !! k); done. Qed.

Lemma StrictRedis_accepts (kwargs : dict) :
  (∀ k, is_Some (kwargs !! k) → known k = true) →
  Strict.StrictRedis known kwargs = Returns kwargs.
Proof.
  intros H. unfold Strict.StrictRedis. rewrite bool_decide_eq_true_2; [done|].
  intros k v Hk. apply H. by exists v.
Qed.

Lemma known_all (m : dict) :
  bool_decide (map_Forall (λ k _, known k = true) m) = true →
  ∀ k, is_Some (m !! k) → known k = true.
Proof. intros H k [v Hk]. apply bool_decide_eq_true in H. by apply (H k v). Qed.

Lemma StrictRedis_refuses (kwargs : dict) k :
  is_Some (kwargs !! k) → known k = false →
  Strict.StrictRedis known kwargs
  = Raises (TypeError "__init__() got an unexpected keyword argument").
Proof.
  intros [v Hk] Hn. unfold Strict.StrictRedis. rewrite bool_decide_eq_false_2; [done|].
  intros H. specialize (H k v Hk). cbn in H. congruence.
Qed.

Lemma strict_create_queue_run (h : heap) l d name kwargs :
  h !! l = Some d →
  Strict._create_queue known l name kwargs h
  = (match Strict.StrictRedis known (update d kwargs) with
     | Returns connection => Returns (rq_Queue name connection)
     | Raises e => Raises e
     end,
     <[l := update d kwargs]> h).
Proof.
  intros Hd. unfold Strict._create_queue. cbn.
  rewrite lookup_alter_eq, Hd. cbn.
  assert (alter (λ d0, update d0 kwargs) l h = <[l := update d kwargs]> h) as ->.
  { apply map_eq. intros i. destruct (decide (i = l)) as [->|Hne].
    - by rewrite lookup_alter_eq, lookup_insert_eq, Hd.
    - by rewrite lookup_alter_ne, lookup_insert_ne. }
  by destruct (Strict.StrictRedis known (update d kwargs)).
Qed.

(** X14: [_create_queue] first writes every keyword it is given into the
    configuration dictionary, over the entry of the same name, and leaves
    every other entry and every other dictionary alone; that happens whether
    or not a queue comes out.  When redis takes every keyword the dictionary
    then holds, the call returns the queue of the name given, connected with
    exactly those entries; when the dictionary holds a keyword redis does not
    take, the call raises a [TypeError], and the dictionary stays updated. *)
Theorem create_queue_overrides_or_refuses (h : heap) l d name kwargs :
  h !! l = Some d →
  kwargs !! "name" = None →
  let r := Strict._create_queue known l name kwargs h in
  snd r !! l = Some (update d kwargs) ∧
  (∀ l', l' ≠ l → snd r !! l' = h !! l') ∧
  (∀ k, update d kwargs !! k
        = match kwargs !! k with Some v => Some v | None => d !! k end) ∧
  ((∀ k, is_Some (kwargs !! k) ∨ is_Some (d !! k) → known k = true) →
   fst r = Returns (rq_Queue name (update d kwargs))) ∧
  (∀ k, is_Some (kwargs !! k) ∨ is_Some (d !! k) → known k = false →
        ∃ msg, fst r = Raises (TypeError msg)).
Proof.
  intros Hd _ r. subst r. rewrite (strict_create_queue_run h l d name kwargs Hd). cbn.
  split_and!.
  - by rewrite lookup_insert_eq.
  - intros l' Hne. by rewrite lookup_insert_ne.
  - apply lookup_update.
  - intros Hok. rewrite StrictRedis_accepts; [done|].
    intros k Hk. apply Hok. rewrite lookup_update in Hk.
    destruct (kwargs !! k); [left; eauto|by right].
  - intros k Hk Hn. rewrite (StrictRedis_refuses _ k); [by eexists| |done].
    rewrite lookup_update. destruct Hk as [[v ->]|Hk]; [eauto|].
    by destruct (kwargs !! k).
Qed.

(** X15: what one call of [_create_queue] wrote is there for the next call
    on the same configuration.  A queue created later without a keyword given
    earlier is still connected with the earlier override, later keywords
    winning over earlier ones and these over the original entries; and after
    a call that was given a keyword redis does not take, every later call
    raises a [TypeError] too, whatever keywords it is given. *)
Theorem create_queue_overrides_persist (h : heap) l d name1 kwargs1 name2 kwargs2 :
  h !! l = Some d →
  kwargs1 !! "name" = None → kwargs2 !! "name" = None →
  let h1 := snd (Strict._create_queue known l name1 kwargs1 h) in
  let r := Strict._create_queue known l name2 kwargs2 h1 in
  snd r !! l = Some (update (update d kwargs1) kwargs2) ∧
  ((∀ k, is_Some (kwargs2 !! k) ∨ is_Some (kwargs1 !! k) ∨ is_Some (d !! k) →
         known k = true) →
   ∃ queue, fst r = Returns queue ∧ q_name queue = name2 ∧
     ∀ k, q_connection queue !! k
          = match kwargs2 !! k with
            | Some v => Some v
            | None => match kwargs1 !! k with Some v => Some v | None => d !! k end
            end) ∧
  (∀ k, is_Some (kwargs1 !! k) → known k = false →
        ∃ msg, fst r = Raises (TypeError msg)).
Proof.
  intros Hd _ _ h1 r.
  assert (Hh1 : h1 !! l = Some (update d kwargs1)).
  { subst h1. rewrite (strict_create_queue_run h l d name1 kwargs1 Hd). cbn.
    by rewrite lookup_insert_eq. }
  subst r. rewrite (strict_create_queue_run h1 l _ name2 kwargs2 Hh1). cbn.
  split_and!.
  - by rewrite lookup_insert_eq.
  - intros Hok. rewrite StrictRedis_accepts.
    + eexists. split; [reflexivity|]. split; [done|]. intros k. cbn.
      by rewrite !lookup_update.
    + intros k Hk. apply Hok. rewrite !lookup_update in Hk.
      destruct (kwargs2 !! k); [left; eauto|]. destruct (kwargs1 !! k); [right; left; eauto|].
      by right; right.
  - intros k Hk Hn. rewrite (StrictRedis_refuses _ k); [by eexists| |done].
    rewrite !lookup_update. destruct Hk as [v ->]. by destruct (kwargs2 !! k).
Qed.

Lemma strict_init_run (h : heap) d :
  h !! DEFAULT = Some d →
  Strict.__init__ known DEFAULT h
  = (match Strict.StrictRedis known d with
     | Returns connection =>
         Returns {| redis_config := DEFAULT; q := rq_Queue "default" connection |}
     | Raises e => Raises e
     end, h).
Proof.
  intros Hd. unfold Strict.__init__.
  rewrite (strict_create_queue_run h DEFAULT d "default" ∅ Hd).
  assert (update d ∅ = d) as -> by (unfold update; by rewrite (left_id_L ∅ (∪))).
  rewrite (insert_id h DEFAULT d Hd).
  by destruct (Strict.StrictRedis known d).
Qed.

(** X16: a resource that was constructed holds the address of the global
    configuration and a queue named ["default"], connected with the entries
    the configuration had then; constructing it changed no dictionary.  After
    [_create_queue] was given keywords through that resource, the next
    resource is constructed with a queue connected with the overridden
    entries when redis takes the keywords, and its construction raises a
    [TypeError] when one of them is a keyword redis does not take. *)
Theorem later_resource_follows_overrides (h : heap) d name kwargs a h1 :
  h !! DEFAULT = Some d →
  kwargs !! "name" = None →
  Strict.__init__ known DEFAULT h = (Returns a, h1) →
  let h2 := snd (Strict._create_queue known (redis_config a) name kwargs h1) in
  let r := Strict.__init__ known DEFAULT h2 in
  redis_config a = DEFAULT ∧ q a = rq_Queue "default" d ∧ h1 = h ∧
  snd r = h2 ∧
  ((∀ k, is_Some (kwargs !! k) → known k = true) →
   fst r = Returns {| redis_config := DEFAULT;
                      q := rq_Queue "default" (update d kwargs) |}) ∧
  (∀ k, is_Some (kwargs !! k) → known k = false →
        ∃ msg, fst r = Raises (TypeError msg)).
Proof.
  intros Hd _ Ha h2 r. rewrite (strict_init_run h d Hd) in Ha.
  assert (Hknown : ∀ k, is_Some (d !! k) → known k = true).
  { intros k [v Hk]. unfold Strict.StrictRedis in Ha.
    destruct (bool_decide _) eqn:Hb; [|by simplify_eq].
    apply bool_decide_eq_true in Hb. by apply (Hb k v). }
  rewrite (StrictRedis_accepts d Hknown) in Ha. injection Ha as Ea Eh. subst a h1.
  cbn in h2.
  assert (Hh2 : h2 !! DEFAULT = Some (update d kwargs)).
  { subst h2. rewrite (strict_create_queue_run h DEFAULT d name kwargs Hd). cbn.
    by rewrite lookup_insert_eq. }
  subst r. rewrite (strict_init_run h2 _ Hh2). cbn.
  split_and!; try done.
  - intros Hok. rewrite StrictRedis_accepts; [done|].
    intros k Hk. rewrite lookup_update in Hk.
    destruct (kwargs !! k) eqn:E; [apply Hok; rewrite E; eauto|by apply Hknown].
  - intros k Hk Hn. rewrite (StrictRedis_refuses _ k); [by eexists| |done].
    rewrite lookup_update. by destruct Hk as [v ->].
Qed.
End Queues.

(** * The further properties at concrete requests *)

(** X10 at [times = "3"], a string. *)
Lemma execute_rejects_non_integer_times_witness :
  handle (on_post Model.collab Model.resource (Model.json [("times", PStr "3")]) (Some "1"))
    Model.used Model.one_task
  = (Raises (TypeError "range() integer end argument expected"),
     State Model.one_task (with_status Model.used HTTP_200) None []).
Proof.
  apply (execute_rejects_non_integer_times Model.collab Model.resource
           (Model.json [("times", PStr "3")]) (Some "1") Model.used Model.one_task);
    reflexivity.
Defined.


(** X12 at an id no Task has. *)
Lemma execute_calls_only_the_queue_witness :
  Forall (λ ev, is_enqueue (fst ev) = true)
    (trace (snd (handle (on_post Model.collab Model.resource
                           (Model.json [("times", PInt 2)]) (Some "404"))
                   Model.fresh Model.empty))) ∧
  length (trace (snd (handle (on_post Model.collab Model.resource
                                (Model.json [("times", PInt 2)]) (Some "404"))
                        Model.fresh Model.empty))) = 2%nat.
Proof.
  split; [|reflexivity].
  apply (execute_calls_only_the_queue Model.collab Model.resource
           (Model.json [("times", PInt 2)]) (Some "404") Model.fresh Model.empty eq_refl).
Defined.

(** X8 at the first creation. *)
Lemma create_calls_the_store_once_witness :
  trace (snd (handle (on_post Model.collab Model.resource Model.new_task None)
                Model.fresh Model.empty))
  = [(create_db_session_, None);
     (create_unique_task_ 0%nat (PStr "registry/busybox") (PStr "nightly"), None);
     (close_db_session_ 0%nat, None)].
Proof.
  destruct (create_calls_the_store_once Model.collab Model.resource Model.new_task None
              Model.fresh Model.empty eq_refl) as [[e H]|(s & o & o' & H)]; reflexivity.
Defined.

(** X1 at a lookup that raises. *)
Lemma acquired_session_is_released_witness :
  last (trace (snd (handle (on_get (Model.faulty Model.lookup_fails) Model.resource
                              Model.no_body (Some "1"))
                      Model.fresh Model.one_task)))
  = Some (close_db_session_ 1%nat, None).
Proof.
  destruct (acquired_session_is_released (Model.faulty Model.lookup_fails) Model.resource
              Model.no_body (Some "1") Model.fresh Model.one_task 1%nat
              (snd (Model.create_db_session Model.one_task)) eq_refl _ (or_introl eq_refl))
    as (calls & o & H & _).
  reflexivity.
Defined.

(** X2 at a release that raises after a lookup that found the Task. *)
Lemma guarded_handlers_raise_only_from_session_calls_witness :
  let r := handle (on_get (Model.faulty Model.release_fails) Model.resource
                     Model.no_body (Some "1"))
             Model.fresh Model.one_task in
  fst r = Raises (Error "InvalidRequestError") ∧ status (resp (snd r)) = HTTP_200.
Proof.
  cbv zeta. split; [|reflexivity].
  apply (guarded_handlers_raise_only_from_session_calls (Model.faulty Model.release_fails)
           Model.resource Model.no_body (Some "1") Model.fresh Model.one_task _
           (Error "InvalidRequestError") (or_introl eq_refl)).
  right. exists 1%nat. reflexivity.
Defined.

(** X7 on a response that came with a body and a location. *)
Lemma untouched_response_fields_witness :
  location (resp (snd (handle (on_get Model.collab Model.resource Model.no_body (Some "1"))
                         Model.used Model.one_task))) = Some "/task/9/" ∧
  body (resp (snd (handle (on_post Model.collab Model.resource Model.new_task None)
                     Model.used Model.empty))) = Some "stale" ∧
  location (resp (snd (handle (on_post Model.collab Model.resource Model.no_body (Some "1"))
                         Model.used Model.one_task))) = Some "/task/9/".
Proof.
  split_and!.
  - exact (proj1 (untouched_response_fields Model.collab Model.resource Model.no_body
                    (Some "1") Model.used Model.one_task)).
  - exact (proj1 (proj2 (untouched_response_fields Model.collab Model.resource
                           Model.new_task None Model.used Model.empty))).
  - exact (proj2 (proj2 (untouched_response_fields Model.collab Model.resource
                           Model.no_body (Some "1") Model.used Model.one_task)) eq_refl).
Defined.

(** X5 at an id no Task has. *)
Lemma get_task_keeps_body_unless_200_witness :
  let r := resp (snd (handle (on_get Model.collab Model.resource Model.no_body (Some "7"))
                        Model.used Model.one_task)) in
  status r = HTTP_404 ∧ body r = Some "stale".
Proof.
  cbv zeta. split; [reflexivity|].
  apply (get_task_keeps_body_unless_200 Model.collab Model.resource Model.no_body (Some "7")
           Model.used Model.one_task eq_refl).
  vm_compute. discriminate.
Defined.

(** X9 at a payload without fields. *)
Lemma failed_creation_keeps_location_witness :
  location (resp (snd (handle (on_post Model.collab Model.resource Model.no_body None)
                         Model.used Model.empty))) = Some "/task/9/".
Proof.
  apply (failed_creation_keeps_location Model.collab Model.resource Model.no_body None
           Model.used Model.empty eq_refl).
  reflexivity.
Defined.

(** X13 at a payload with a key of its own. *)
Lemma on_post_reads_two_keys_witness :
  on_post Model.collab Model.resource
    (Model.json [("times", PInt 2); ("priority", PStr "high")]) (Some "1")
  = on_post Model.collab Model.resource (Model.json [("times", PInt 2)]) (Some "1").
Proof.
  apply (on_post_reads_two_keys Model.collab Model.resource
           (Model.json [("times", PInt 2); ("priority", PStr "high")])
           (Model.json [("times", PInt 2)]) (Some "1")).
  split; reflexivity.
Defined.

(** X14 at the override [db=1], which redis takes, and at [bogus=1], which
    it does not. *)
Lemma create_queue_overrides_or_refuses_witness :
  let d : dict := {[ "host" := PStr "localhost"; "port" := PInt 6379; "db" := PInt 0 ]} in
  fst (Strict._create_queue Model.known Model.config_DEFAULT "high" {[ "db" := PInt 1 ]}
         Model.interpreter)
  = Returns (rq_Queue "high" (update d {[ "db" := PInt 1 ]})) ∧
  (∃ msg, fst (Strict._create_queue Model.known Model.config_DEFAULT "high"
                 {[ "bogus" := PInt 1 ]} Model.interpreter)
          = Raises (TypeError msg)) ∧
  snd (Strict._create_queue Model.known Model.config_DEFAULT "high"
         {[ "bogus" := PInt 1 ]} Model.interpreter) !! Model.config_DEFAULT
  = Some (update d {[ "bogus" := PInt 1 ]}).
Proof.
  cbv zeta.
  pose proof (create_queue_overrides_or_refuses Model.known Model.interpreter
                Model.config_DEFAULT
                {[ "host" := PStr "localhost"; "port" := PInt 6379; "db" := PInt 0 ]}
                "high" {[ "db" := PInt 1 ]} eq_refl eq_refl) as (_ & _ & _ & Hok & _).
  pose proof (create_queue_overrides_or_refuses Model.known Model.interpreter
                Model.config_DEFAULT
                {[ "host" := PStr "localhost"; "port" := PInt 6379; "db" := PInt 0 ]}
                "high" {[ "bogus" := PInt 1 ]} eq_refl eq_refl) as (Hh & _ & _ & _ & Hbad).
  split_and!.
  - apply Hok. intros k [Hk|Hk]; revert Hk; apply known_all; vm_compute; reflexivity.
  - apply (Hbad "bogus"); [left; vm_compute; eauto|vm_compute; reflexivity].
  - exact Hh.
Defined.

(** X15 at the override [db=1] followed by a call without keywords, and at
    [bogus=1] followed by the same call. *)
Lemma create_queue_overrides_persist_witness :
  (∃ queue,
     fst (Strict._create_queue Model.known Model.config_DEFAULT "low" ∅
            (snd (Strict._create_queue Model.known Model.config_DEFAULT "high"
                    {[ "db" := PInt 1 ]} Model.interpreter)))
     = Returns queue ∧ q_connection queue !! "db" = Some (PInt 1)) ∧
  (∃ msg,
     fst (Strict._create_queue Model.known Model.config_DEFAULT "low" ∅
            (snd (Strict._create_queue Model.known Model.config_DEFAULT "high"
                    {[ "bogus" := PInt 1 ]} Model.interpreter)))
     = Raises (TypeError msg)).
Proof.
  pose proof (create_queue_overrides_persist Model.known Model.interpreter
                Model.config_DEFAULT
                {[ "host" := PStr "localhost"; "port" := PInt 6379; "db" := PInt 0 ]}
                "high" {[ "db" := PInt 1 ]} "low" ∅ eq_refl eq_refl eq_refl)
    as (_ & Hok & _).
  pose proof (create_queue_overrides_persist Model.known Model.interpreter
                Model.config_DEFAULT
                {[ "host" := PStr "localhost"; "port" := PInt 6379; "db" := PInt 0 ]}
                "high" {[ "bogus" := PInt 1 ]} "low" ∅ eq_refl eq_refl eq_refl)
    as (_ & _ & Hbad).
  split.
  - destruct Hok as (queue & Hq & _ & Hconn).
    + intros k [Hk|[Hk|Hk]]; revert Hk; apply known_all; vm_compute; reflexivity.
    + exists queue. split; [exact Hq|]. rewrite Hconn. reflexivity.
  - apply (Hbad "bogus"); [vm_compute; eauto|vm_compute; reflexivity].
Defined.

(** X16 at the override [db=1], and at [bogus=1], after which no resource
    can be constructed. *)
Lemma later_resource_follows_overrides_witness :
  let d : dict := {[ "host" := PStr "localhost"; "port" := PInt 6379; "db" := PInt 0 ]} in
  let a := {| redis_config := Model.config_DEFAULT; q := rq_Queue "default" d |} in
  Strict.__init__ Model.known Model.config_DEFAULT Model.interpreter
  = (Returns a, Model.interpreter) ∧
  fst (Strict.__init__ Model.known Model.config_DEFAULT
         (snd (Strict._create_queue Model.known (redis_config a) "high"
                 {[ "db" := PInt 1 ]} Model.interpreter)))
  = Returns {| redis_config := Model.config_DEFAULT;
               q := rq_Queue "default" (update d {[ "db" := PInt 1 ]}) |} ∧
  (∃ msg,
     fst (Strict.__init__ Model.known Model.config_DEFAULT
            (snd (Strict._create_queue Model.known (redis_config a) "high"
                    {[ "bogus" := PInt 1 ]} Model.interpreter)))
     = Raises (TypeError msg)).
Proof.
  cbv zeta.
  assert (Ha : Strict.__init__ Model.known Model.config_DEFAULT Model.interpreter
               = (Returns {| redis_config := Model.config_DEFAULT;
                             q := rq_Queue "default"
                                    {[ "host" := PStr "localhost"; "port" := PInt 6379;
                                       "db" := PInt 0 ]} |},
                  Model.interpreter)) by (vm_compute; reflexivity).
  split; [exact Ha|].
  pose proof (later_resource_follows_overrides Model.known Model.config_DEFAULT
                Model.interpreter _ "high" {[ "db" := PInt 1 ]} _ _ eq_refl eq_refl Ha)
    as (_ & _ & _ & _ & Hok & _).
  pose proof (later_resource_follows_overrides Model.known Model.config_DEFAULT
                Model.interpreter _ "high" {[ "bogus" := PInt 1 ]} _ _ eq_refl eq_refl Ha)
    as (_ & _ & _ & _ & _ & Hbad).
  split.
  - apply Hok. apply known_all. vm_compute. reflexivity.
  - apply (Hbad "bogus"); [vm_compute; eauto|vm_compute; reflexivity].
Defined.
